(** * EchoTorch: the Echo State Network orchestrator

    Shallow embedding of [echotorch/nn/reservoir/ESN.py] (class [ESN]) and
    the properties of its forward pass, its washout window, its
    train / finalize / reset life cycle and its matrix resolution.

    Python objects are mutable and an exception does not roll a mutation
    back, so every method is a function from the state before the call to
    the state after it together with either a returned value or a raised
    exception. *)

From Stdlib Require Import ZArith List Bool Lia.
Import ListNotations.
Local Open Scope Z_scope.

(** ** Exceptions and the state-and-exception monad *)

(** The exception classes that matter here: [TypeError] is what Python raises
    when [None] is subscripted; the other three are the error taxonomy of the
    specification; [RuntimeError] stands for any other failure of a
    collaborator. *)
Inductive exn : Type :=
| TypeError
| ModeError
| ConfigurationError
| NumericalError
| RuntimeError.

Inductive result (A : Type) : Type :=
| Ok (a : A)
| Raise (e : exn).
Arguments Ok {A} a.
Arguments Raise {A} e.

Definition is_ok {A : Type} (r : result A) : bool :=
  match r with Ok _ => true | Raise _ => false end.

(** A computation over a mutable state [S]: the state is kept when an
    exception is raised. *)
Definition M (S A : Type) : Type := S -> S * result A.

Definition ret {S A : Type} (a : A) : M S A := fun s => (s, Ok a).

Definition raise {S A : Type} (e : exn) : M S A := fun s => (s, Raise e).

Definition bind {S A B : Type} (m : M S A) (k : A -> M S B) : M S B :=
  fun s =>
    match m s with
    | (s', Ok a) => k a s'
    | (s', Raise e) => (s', Raise e)
    end.

Definition gets {S A : Type} (f : S -> A) : M S A := fun s => (s, Ok (f s)).

Definition modify {S : Type} (f : S -> S) : M S unit := fun s => (f s, Ok tt).

Notation "x <- m ;; k" := (bind m (fun x => k))
  (at level 61, m at next level, right associativity).
Notation "m ;;; k" := (bind m (fun _ => k))
  (at level 61, right associativity).

(** ** Tensors and slicing *)

(** A batch of sequences, indexed [batch][time]; the innermost axis is kept
    abstract (one value of type [A] per timestep). *)
Definition batch (A : Type) : Type := list (list A).

(** The index at which the Python slice [l[start:]] begins on a sequence of
    length [len]: a negative [start] counts from the end, and the bound is
    clamped to [0 .. len]. *)
Definition slice_start (start : Z) (len : nat) : nat :=
  if start <? 0
  then Z.to_nat (Z.max (Z.of_nat len + start) 0)
  else Z.to_nat (Z.min start (Z.of_nat len)).

(** [l[start:]] *)
Definition slice_from {A : Type} (start : Z) (l : list A) : list A :=
  skipn (slice_start start (length l)) l.

(** [t[:, start:]] : the slice is taken along the time axis of every
    sequence of the batch. *)
Definition slice_time {A : Type} (start : Z) (t : batch A) : batch A :=
  map (slice_from start) t.

(** ** Modules with a training flag *)

(** Every [torch.nn.Module] carries a boolean [training]; the rest of its
    state is [mod_state]. *)
Record nnModule (S : Type) : Type := {
  mod_training : bool;
  mod_state : S
}.

Arguments mod_training {S} _.
Arguments mod_state {S} _.

Definition mod_train {S : Type} (mode : bool) (m : nnModule S) : nnModule S :=
  {| mod_training := mode; mod_state := mod_state m |}.

(** The size passed to a generator: a pair for the two matrices, a single
    integer for the bias. *)
Inductive shape : Type :=
| Shape2 (rows cols : Z)
| Shape1 (n : Z).

(** ** The values the orchestrator passes around *)

(** Weight objects, real scalars, the non-linearity, the learning algorithm
    selector, the dtype, one timestep of input, of hidden state and of
    target, and the state shared by the generators (a seeded random stream,
    for instance).  A [Matrix] stands for a reference to an array object:
    equality on [Matrix] is identity of the object. *)
Class Signature : Type := {
  Matrix : Type;
  Scalar : Type;
  Func : Type;
  Algo : Type;
  Dtype : Type;
  UVec : Type;
  HVec : Type;
  YVec : Type;
  G : Type
}.

Section Orchestrator.

Context {Sg : Signature}.

(** *** The collaborators *)

(** Keyword arguments of the [ESNCell] constructor, as [ESN.__init__] passes
    them. *)
Record ESNCell_args : Type := {
  cell_input_dim : Z;
  cell_output_dim : Z;
  cell_w : Matrix;
  cell_w_in : Matrix;
  cell_w_bias : Matrix;
  cell_spectral_radius : Scalar;
  cell_bias_scaling : Scalar;
  cell_input_scaling : Scalar;
  cell_nonlin_func : Func;
  cell_dtype : Dtype
}.

(** Keyword arguments of the [RRCell] constructor. *)
Record RRCell_args : Type := {
  rr_input_dim : Z;
  rr_output_dim : Z;
  rr_ridge_param : Scalar;
  rr_with_bias : bool;
  rr_learning_algo : Algo;
  rr_softmax_output : bool;
  rr_dtype : Dtype
}.

(** The reservoir engine ([ESNCell]) as [ESN] uses it: its constructor, the
    call [self._esn_cell(u, reset_state=...)], [reset_hidden()] and the
    attributes read or written by the properties of [ESN]. *)
Record ReservoirEngine : Type := {
  Cell : Type;
  Hidden : Type;
  ESNCell_init : ESNCell_args -> result Cell;
  ESNCell_call : batch UVec -> bool -> M (nnModule Cell) (batch HVec);
  ESNCell_reset_hidden : M (nnModule Cell) unit;
  ESNCell_spectral_radius : Cell -> Scalar;
  ESNCell_set_spectral_radius : Scalar -> M (nnModule Cell) unit;
  ESNCell_hidden : Cell -> Hidden;
  ESNCell_w : Cell -> Matrix;
  ESNCell_w_in : Cell -> Matrix
}.

(** The readout trainer ([RRCell]) as [ESN] uses it: its constructor, the
    call [self._output(states, targets)] where [targets] may be [None],
    [reset()], [finalize()] and the attribute [w_out]. *)
Record ReadoutTrainer : Type := {
  Readout : Type;
  Out : Type;
  WOut : Type;
  RRCell_init : RRCell_args -> result Readout;
  RRCell_call : batch HVec -> option (batch YVec) -> M (nnModule Readout) Out;
  RRCell_reset : M (nnModule Readout) unit;
  RRCell_finalize : M (nnModule Readout) unit;
  RRCell_w_out : Readout -> WOut
}.

(** A value supplied for a weight slot.  [gen_generate] is its [generate]
    method when the value is an instance of [mg.MatrixGenerator]; [gen_call]
    is its [__call__] when the value is callable; [gen_itself] is the value
    itself, seen as a weight object.  Both methods receive the keyword
    argument [size] and may use and change the state [G]. *)
Record generator : Type := {
  gen_generate : option (shape -> M G Matrix);
  gen_call : option (shape -> M G Matrix);
  gen_itself : Matrix
}.

Variable RE : ReservoirEngine.
Variable RO : ReadoutTrainer.

(** *** The model *)

(** The attributes of an [ESN] instance.  [training] and [_input_dim] are
    set by the base class. *)
Record ESN : Type := {
  training : bool;
  _input_dim : Z;
  _output_dim : Z;
  _hidden_dim : Z;
  _with_bias : bool;
  _washout : Z;
  _w_generator : generator;
  _win_generator : generator;
  _wbias_generator : generator;
  _dtype : Dtype;
  _esn_cell : nnModule (Cell RE);
  _output : nnModule (Readout RO)
}.

Definition set_training (mode : bool) (self : ESN) : ESN :=
  {| training := mode;
     _input_dim := _input_dim self;
     _output_dim := _output_dim self;
     _hidden_dim := _hidden_dim self;
     _with_bias := _with_bias self;
     _washout := _washout self;
     _w_generator := _w_generator self;
     _win_generator := _win_generator self;
     _wbias_generator := _wbias_generator self;
     _dtype := _dtype self;
     _esn_cell := _esn_cell self;
     _output := _output self |}.

Definition set_esn_cell (c : nnModule (Cell RE)) (self : ESN) : ESN :=
  {| training := training self;
     _input_dim := _input_dim self;
     _output_dim := _output_dim self;
     _hidden_dim := _hidden_dim self;
     _with_bias := _with_bias self;
     _washout := _washout self;
     _w_generator := _w_generator self;
     _win_generator := _win_generator self;
     _wbias_generator := _wbias_generator self;
     _dtype := _dtype self;
     _esn_cell := c;
     _output := _output self |}.

Definition set_output (o : nnModule (Readout RO)) (self : ESN) : ESN :=
  {| training := training self;
     _input_dim := _input_dim self;
     _output_dim := _output_dim self;
     _hidden_dim := _hidden_dim self;
     _with_bias := _with_bias self;
     _washout := _washout self;
     _w_generator := _w_generator self;
     _win_generator := _win_generator self;
     _wbias_generator := _wbias_generator self;
     _dtype := _dtype self;
     _esn_cell := _esn_cell self;
     _output := o |}.

(** The model with other values in the three attributes that retain the
    generators. *)
Definition set_generators (gw gwin gb : generator) (self : ESN) : ESN :=
  {| training := training self;
     _input_dim := _input_dim self;
     _output_dim := _output_dim self;
     _hidden_dim := _hidden_dim self;
     _with_bias := _with_bias self;
     _washout := _washout self;
     _w_generator := gw;
     _win_generator := gwin;
     _wbias_generator := gb;
     _dtype := _dtype self;
     _esn_cell := _esn_cell self;
     _output := _output self |}.

(** A method call on [self._esn_cell]: it changes that sub-module only. *)
Definition on_esn_cell {A : Type} (f : M (nnModule (Cell RE)) A) : M ESN A :=
  fun self =>
    let (c, r) := f (_esn_cell self) in (set_esn_cell c self, r).

(** A method call on [self._output]. *)
Definition on_output {A : Type} (f : M (nnModule (Readout RO)) A) : M ESN A :=
  fun self =>
    let (o, r) := f (_output self) in (set_output o self, r).

(** Modelled from the spec: [train(mode)], inherited through the base class
    [Node], whose file is not among the sources.  The training mode is one
    flag for the whole model instance: the call sets it on the model and on
    its two sub-modules. *)
Definition train (mode : bool) : M ESN unit :=
  modify (fun self =>
    set_output (mod_train mode (_output self))
      (set_esn_cell (mod_train mode (_esn_cell self))
         (set_training mode self))).

(** [y[:, start:]] where [y] may be [None]: subscripting [None] raises
    [TypeError]. *)
Definition subscript_time {S A : Type} (y : option (batch A)) (start : Z)
  : M S (batch A) :=
  match y with
  | None => raise TypeError
  | Some t => ret (slice_time start t)
  end.

(** [ESN.forward] *)
Definition forward (u : batch UVec) (y : option (batch YVec))
    (reset_state : bool) : M ESN (Out RO) :=
  hidden_states <- on_esn_cell (ESNCell_call RE u reset_state) ;;
  is_training <- gets training ;;
  washout <- gets _washout ;;
  if negb is_training then
    on_output (RRCell_call RO (slice_time washout hidden_states) None)
  else
    targets <- subscript_time y washout ;;
    on_output
      (RRCell_call RO (slice_time washout hidden_states) (Some targets)).

(** [ESN.reset] *)
Definition reset : M ESN unit :=
  on_output (RRCell_reset RO) ;;;
  train true.

(** [ESN.finalize] *)
Definition finalize : M ESN unit :=
  on_output (RRCell_finalize RO) ;;;
  train false.

(** [ESN.reset_hidden] *)
Definition reset_hidden : M ESN unit :=
  on_esn_cell (ESNCell_reset_hidden RE).

(** The properties of [ESN]: each reads an attribute of a collaborator;
    [spectral_radius] can also be assigned. *)
Definition spectral_radius (self : ESN) : Scalar :=
  ESNCell_spectral_radius RE (mod_state (_esn_cell self)).

Definition set_spectral_radius (sp : Scalar) : M ESN unit :=
  on_esn_cell (ESNCell_set_spectral_radius RE sp).

Definition hidden (self : ESN) : Hidden RE :=
  ESNCell_hidden RE (mod_state (_esn_cell self)).

Definition w (self : ESN) : Matrix :=
  ESNCell_w RE (mod_state (_esn_cell self)).

Definition w_in (self : ESN) : Matrix :=
  ESNCell_w_in RE (mod_state (_esn_cell self)).

Definition w_out (self : ESN) : WOut RO :=
  RRCell_w_out RO (mod_state (_output self)).

(** *** Construction *)

(** The resolution of one weight slot in the words of the specification
    (section 4.1): a value with a [generate] capability is asked to
    generate, else a value that can be invoked is invoked, else the value
    itself is the matrix. *)
Definition resolve (g : generator) (size : shape) : M G Matrix :=
  match gen_generate g with
  | Some generate => generate size
  | None =>
      match gen_call g with
      | Some invoke => invoke size
      | None => ret (gen_itself g)
      end
  end.

(** The same three rules as a relation between a supplied value, a size and
    the computation that yields the matrix. *)
Inductive dispatch (g : generator) (size : shape) : M G Matrix -> Prop :=
| dispatch_generate : forall generate,
    gen_generate g = Some generate ->
    dispatch g size (generate size)
| dispatch_call : forall invoke,
    gen_generate g = None ->
    gen_call g = Some invoke ->
    dispatch g size (invoke size)
| dispatch_itself :
    gen_generate g = None ->
    gen_call g = None ->
    dispatch g size (ret (gen_itself g)).

(** [ESN._generate_matrices].  The two dimensions are the attributes
    [self._hidden_dim] and [self._input_dim] that the method reads. *)
Definition _generate_matrices (self_hidden_dim self_input_dim : Z)
    (w_generator win_generator wbias_generator : generator)
  : M G (Matrix * Matrix * Matrix) :=
  w <- match gen_generate w_generator with
       | Some generate => generate (Shape2 self_hidden_dim self_hidden_dim)
       | None =>
           match gen_call w_generator with
           | Some call => call (Shape2 self_hidden_dim self_hidden_dim)
           | None => ret (gen_itself w_generator)
           end
       end ;;
  w_in <- match gen_generate win_generator with
          | Some generate => generate (Shape2 self_hidden_dim self_input_dim)
          | None =>
              match gen_call win_generator with
              | Some call => call (Shape2 self_hidden_dim self_input_dim)
              | None => ret (gen_itself win_generator)
              end
          end ;;
  w_bias <- match gen_generate wbias_generator with
            | Some generate => generate (Shape1 self_hidden_dim)
            | None =>
                match gen_call wbias_generator with
                | Some call => call (Shape1 self_hidden_dim)
                | None => ret (gen_itself wbias_generator)
                end
            end ;;
  ret (w, w_in, w_bias).

(** The arguments of the constructor. *)
Record ESN_args : Type := {
  arg_input_dim : Z;
  arg_hidden_dim : Z;
  arg_output_dim : Z;
  arg_w_generator : generator;
  arg_win_generator : generator;
  arg_wbias_generator : generator;
  arg_spectral_radius : Scalar;
  arg_bias_scaling : Scalar;
  arg_input_scaling : Scalar;
  arg_nonlin_func : Func;
  arg_learning_algo : Algo;
  arg_ridge_param : Scalar;
  arg_with_bias : bool;
  arg_softmax_output : bool;
  arg_washout : Z;
  arg_dtype : Dtype
}.

(** A constructor that raises leaves no object behind. *)
Definition construct {S A : Type} (r : result A) : M S A := fun s => (s, r).

(** The keyword arguments [__init__] passes to the [ESNCell] constructor:
    the resolved matrices and the reservoir settings; the hidden dimension is
    the output dimension of the cell. *)
Definition ESNCell_kwargs (a : ESN_args) (w w_in w_bias : Matrix)
  : ESNCell_args :=
  {| cell_input_dim := arg_input_dim a;
     cell_output_dim := arg_hidden_dim a;
     cell_w := w;
     cell_w_in := w_in;
     cell_w_bias := w_bias;
     cell_spectral_radius := arg_spectral_radius a;
     cell_bias_scaling := arg_bias_scaling a;
     cell_input_scaling := arg_input_scaling a;
     cell_nonlin_func := arg_nonlin_func a;
     cell_dtype := arg_dtype a |}.

(** The keyword arguments [__init__] passes to the [RRCell] constructor;
    the hidden dimension is the input dimension of the readout. *)
Definition RRCell_kwargs (a : ESN_args) : RRCell_args :=
  {| rr_input_dim := arg_hidden_dim a;
     rr_output_dim := arg_output_dim a;
     rr_ridge_param := arg_ridge_param a;
     rr_with_bias := arg_with_bias a;
     rr_learning_algo := arg_learning_algo a;
     rr_softmax_output := arg_softmax_output a;
     rr_dtype := arg_dtype a |}.

(** The attributes of the instance once both engines are built.  A new
    module starts in training mode, and so do its two sub-modules. *)
Definition new_instance (a : ESN_args) (esn_cell : Cell RE)
    (output : Readout RO) : ESN :=
  {| training := true;
     _input_dim := arg_input_dim a;
     _output_dim := arg_output_dim a;
     _hidden_dim := arg_hidden_dim a;
     _with_bias := arg_with_bias a;
     _washout := arg_washout a;
     _w_generator := arg_w_generator a;
     _win_generator := arg_win_generator a;
     _wbias_generator := arg_wbias_generator a;
     _dtype := arg_dtype a;
     _esn_cell := {| mod_training := true; mod_state := esn_cell |};
     _output := {| mod_training := true; mod_state := output |} |}.

(** [ESN.__init__]: the matrices are generated, then the reservoir engine
    is built, then the readout. *)
Definition __init__ (a : ESN_args) : M G ESN :=
  matrices <- _generate_matrices (arg_hidden_dim a) (arg_input_dim a)
                (arg_w_generator a) (arg_win_generator a)
                (arg_wbias_generator a) ;;
  let '(w, w_in, w_bias) := matrices in
  esn_cell <- construct (ESNCell_init RE (ESNCell_kwargs a w w_in w_bias)) ;;
  output <- construct (RRCell_init RO (RRCell_kwargs a)) ;;
  ret (new_instance a esn_cell output).

(** *** Sequences of calls *)

(** The public operations a caller can apply to a constructed model. *)
Inductive call : Type :=
| Forward (u : batch UVec) (y : option (batch YVec)) (reset_state : bool)
| Reset
| Finalize
| ResetHidden
| SetSpectralRadius (sp : Scalar).

(** What a call returns: [forward] returns what the readout returned, the
    others return [None]. *)
Inductive value : Type :=
| VNone
| VOut (o : Out RO).

Definition exec (c : call) : M ESN value :=
  match c with
  | Forward u y reset_state => o <- forward u y reset_state ;; ret (VOut o)
  | Reset => reset ;;; ret VNone
  | Finalize => finalize ;;; ret VNone
  | ResetHidden => reset_hidden ;;; ret VNone
  | SetSpectralRadius sp => set_spectral_radius sp ;;; ret VNone
  end.

(** The training mode as a machine with two states: a successful
    [finalize] leads to inference ([false]), a successful [reset] leads to
    training ([true]), anything else stays where it is. *)
Definition mode_step (c : call) (succeeded : bool) (mode : bool) : bool :=
  match c with
  | Finalize => if succeeded then false else mode
  | Reset => if succeeded then true else mode
  | Forward _ _ _ | ResetHidden | SetSpectralRadius _ => mode
  end.

(** A forward call that is given targets: in training mode, the call that
    feeds the statistics of the readout. *)
Definition with_targets (c : call) : bool :=
  match c with
  | Forward _ (Some _) _ => true
  | _ => false
  end.

(** The state reached by a sequence of calls; a caller may catch an
    exception and go on, so the sequence continues after a failed call. *)
Fixpoint run (cs : list call) (self : ESN) : ESN :=
  match cs with
  | [] => self
  | c :: cs' => run cs' (fst (exec c self))
  end.

(** The model together with the state of the generators it was built
    from.  No method of a constructed model refers to a generator, so a call
    acts on the model alone. *)
Record world : Type := {
  generators : G;
  model : ESN
}.

Definition exec_world (c : call) (wd : world) : world * result value :=
  let (m, r) := exec c (model wd) in
  ({| generators := generators wd; model := m |}, r).

Fixpoint run_world (cs : list call) (wd : world) : world :=
  match cs with
  | [] => wd
  | c :: cs' => run_world cs' (fst (exec_world c wd))
  end.

End Orchestrator.

Arguments ReservoirEngine Sg : clear implicits.
Arguments ReadoutTrainer Sg : clear implicits.
Arguments generator Sg : clear implicits.
Arguments ESN {Sg} RE RO.
Arguments training {Sg RE RO} _.
Arguments _input_dim {Sg RE RO} _.
Arguments _output_dim {Sg RE RO} _.
Arguments _hidden_dim {Sg RE RO} _.
Arguments _with_bias {Sg RE RO} _.
Arguments _washout {Sg RE RO} _.
Arguments _w_generator {Sg RE RO} _.
Arguments _win_generator {Sg RE RO} _.
Arguments _wbias_generator {Sg RE RO} _.
Arguments _dtype {Sg RE RO} _.
Arguments _esn_cell {Sg RE RO} _.
Arguments _output {Sg RE RO} _.
Arguments set_training {Sg RE RO} mode self.
Arguments set_esn_cell {Sg RE RO} c self.
Arguments set_output {Sg RE RO} o self.
Arguments set_generators {Sg RE RO} gw gwin gb self.
Arguments on_esn_cell {Sg RE RO A} f _.
Arguments on_output {Sg RE RO A} f _.
Arguments train {Sg RE RO} mode _.
Arguments forward {Sg RE RO} u y reset_state _.
Arguments reset {Sg RE RO} _.
Arguments finalize {Sg RE RO} _.
Arguments reset_hidden {Sg RE RO} _.
Arguments spectral_radius {Sg RE RO} self.
Arguments set_spectral_radius {Sg RE RO} sp _.
Arguments hidden {Sg RE RO} self.
Arguments w {Sg RE RO} self.
Arguments w_in {Sg RE RO} self.
Arguments w_out {Sg RE RO} self.
Arguments __init__ {Sg} RE RO a _.
Arguments new_instance {Sg RE RO} a esn_cell output.
Arguments mode_step {Sg} c succeeded mode.
Arguments with_targets {Sg} c.
Arguments call {Sg}.
Arguments value {Sg} RO.
Arguments VNone {Sg RO}.
Arguments VOut {Sg RO} o.
Arguments exec {Sg RE RO} c _.
Arguments run {Sg RE RO} cs self.
Arguments world {Sg} RE RO.
Arguments generators {Sg RE RO} _.
Arguments model {Sg RE RO} _.
Arguments exec_world {Sg RE RO} c wd.
Arguments run_world {Sg RE RO} cs wd.

(** ** The collaborators as the specification describes them

    [ESNCell.py], [RRCell.py], [Node.py] and the matrix generators are not
    among the sources.  The two engines below follow the interface
    contracts of the specification; the numerical parts that the
    specification leaves to the engines (the state update of the reservoir,
    the closed-form solve and the fitted map of the readout) are
    parameters. *)

Section SpecCollaborators.

Context {Sg : Signature}.

(** One timestep of output, and a fitted readout map. *)
Variables OVec Map : Type.

(** The closed-form regression over the accumulated (state, target) pairs;
    it may fail (a singular system under the direct inverse). *)
Variable solve : RRCell_args -> list (HVec * YVec) -> result Map.

(** The fitted map applied to one hidden state. *)
Variable apply_map : Map -> HVec -> OVec.

(** The initial recurrent state and the state update of the reservoir. *)
Variable h0 : HVec.
Variable step : ESNCell_args -> HVec -> UVec -> HVec.

(** *** Readout trainer *)

(** Modelled from the spec: the state of the readout trainer ([RRCell.py]
    is not among the sources): its configuration, the statistics accumulated
    since the last reset, and the fitted map, absent before [finalize]. *)
Record readout_state : Type := {
  rs_args : RRCell_args;
  rs_statistics : list (HVec * YVec);
  rs_w_out : option Map
}.

(** Modelled from the spec: states and targets of one accumulation have the
    same batch and time lengths ([RRCell.py] is not among the sources). *)
Definition same_shape {A B : Type} (x : batch A) (y : batch B) : bool :=
  Nat.eqb (length x) (length y)
  && forallb (fun p => Nat.eqb (length (fst p)) (length (snd p))) (combine x y).

(** Modelled from the spec: the (state, target) pairs of a batch, timestep
    by timestep ([RRCell.py] is not among the sources). *)
Definition pairs {A B : Type} (x : batch A) (y : batch B) : list (A * B) :=
  concat (map (fun p => combine (fst p) (snd p)) (combine x y)).

(** Modelled from the spec: the accumulation operation of the readout
    trainer ([RRCell.py] is not among the sources): the pairs are added to
    the accumulated statistics, nothing is returned. *)
Definition accumulate (states : batch HVec) (targets : batch YVec)
  : M (nnModule readout_state) (option (batch OVec)) :=
  fun m =>
    if same_shape states targets then
      ({| mod_training := mod_training m;
          mod_state :=
            {| rs_args := rs_args (mod_state m);
               rs_statistics :=
                 rs_statistics (mod_state m) ++ pairs states targets;
               rs_w_out := rs_w_out (mod_state m) |} |},
       Ok None)
    else (m, Raise RuntimeError).

(** Modelled from the spec: the prediction operation of the readout trainer
    ([RRCell.py] is not among the sources): the fitted map applied to every
    state; a [ModeError] before any [finalize]. *)
Definition predict (states : batch HVec)
  : M (nnModule readout_state) (option (batch OVec)) :=
  fun m =>
    match rs_w_out (mod_state m) with
    | None => (m, Raise ModeError)
    | Some fitted => (m, Ok (Some (map (map (apply_map fitted)) states)))
    end.

(** Modelled from the spec: the call of the readout trainer ([RRCell.py] is
    not among the sources).  In training mode it accumulates and requires
    targets; in inference mode it predicts and accepts no targets. *)
Definition spec_RRCell_call (states : batch HVec)
    (targets : option (batch YVec))
  : M (nnModule readout_state) (option (batch OVec)) :=
  fun m =>
    if mod_training m then
      match targets with
      | Some y => accumulate states y m
      | None => (m, Raise ModeError)
      end
    else
      match targets with
      | Some _ => (m, Raise ModeError)
      | None => predict states m
      end.

(** Modelled from the spec: [finalize] of the readout trainer ([RRCell.py]
    is not among the sources): it solves and stores the linear map, and
    fails with a [ModeError] when no statistics were accumulated. *)
Definition spec_RRCell_finalize : M (nnModule readout_state) unit :=
  fun m =>
    match rs_statistics (mod_state m) with
    | [] => (m, Raise ModeError)
    | _ :: _ =>
        match solve (rs_args (mod_state m)) (rs_statistics (mod_state m)) with
        | Raise e => (m, Raise e)
        | Ok fitted =>
            ({| mod_training := mod_training m;
                mod_state :=
                  {| rs_args := rs_args (mod_state m);
                     rs_statistics := rs_statistics (mod_state m);
                     rs_w_out := Some fitted |} |},
             Ok tt)
        end
    end.

(** Modelled from the spec: [reset] of the readout trainer ([RRCell.py] is
    not among the sources): it discards the fitted map and the accumulated
    statistics. *)
Definition spec_RRCell_reset : M (nnModule readout_state) unit :=
  fun m =>
    ({| mod_training := mod_training m;
        mod_state :=
          {| rs_args := rs_args (mod_state m);
             rs_statistics := [];
             rs_w_out := None |} |},
     Ok tt).

(** Modelled from the spec: the readout trainer ([RRCell.py] is not among
    the sources).  A new readout has no statistics and no fitted map. *)
Definition SpecReadout : ReadoutTrainer Sg :=
  {| Readout := readout_state;
     Out := option (batch OVec);
     WOut := option Map;
     RRCell_init := fun a =>
       Ok {| rs_args := a; rs_statistics := []; rs_w_out := None |};
     RRCell_call := spec_RRCell_call;
     RRCell_reset := spec_RRCell_reset;
     RRCell_finalize := spec_RRCell_finalize;
     RRCell_w_out := rs_w_out |}.

(** *** Reservoir engine *)

(** Modelled from the spec: the state of the reservoir engine ([ESNCell.py]
    is not among the sources): what it was constructed with and its
    recurrent state. *)
Record cell_state : Type := {
  cs_args : ESNCell_args;
  cs_hidden : HVec
}.

(** Modelled from the spec: the states visited along one sequence, and the
    state reached ([ESNCell.py] is not among the sources). *)
Fixpoint run_sequence (a : ESNCell_args) (h : HVec) (us : list UVec)
  : HVec * list HVec :=
  match us with
  | [] => (h, [])
  | u :: us' =>
      let h' := step a h u in
      let (hn, hs) := run_sequence a h' us' in
      (hn, h' :: hs)
  end.

(** Modelled from the spec: the sequences of a batch, one after the other
    ([ESNCell.py] is not among the sources). *)
Fixpoint run_batch (a : ESNCell_args) (h : HVec) (u : batch UVec)
  : HVec * batch HVec :=
  match u with
  | [] => (h, [])
  | us :: u' =>
      let (h', hs) := run_sequence a h us in
      let (hn, hss) := run_batch a h' u' in
      (hn, hs :: hss)
  end.

(** Modelled from the spec: the compute operation of the reservoir engine
    ([ESNCell.py] is not among the sources): the recurrent state is
    reinitialised first when [reset_state] holds, then advanced over the
    batch; one hidden state is produced per input timestep. *)
Definition spec_ESNCell_call (u : batch UVec) (reset_state : bool)
  : M (nnModule cell_state) (batch HVec) :=
  fun m =>
    let start := if reset_state then h0 else cs_hidden (mod_state m) in
    let (hn, hs) := run_batch (cs_args (mod_state m)) start u in
    ({| mod_training := mod_training m;
        mod_state := {| cs_args := cs_args (mod_state m); cs_hidden := hn |} |},
     Ok hs).

(** Modelled from the spec: [reset_hidden] of the reservoir engine
    ([ESNCell.py] is not among the sources). *)
Definition spec_ESNCell_reset_hidden : M (nnModule cell_state) unit :=
  fun m =>
    ({| mod_training := mod_training m;
        mod_state := {| cs_args := cs_args (mod_state m); cs_hidden := h0 |} |},
     Ok tt).

(** Modelled from the spec: the assignment of a new spectral radius
    ([ESNCell.py] is not among the sources); the matrices stay. *)
Definition with_spectral_radius (sp : Scalar) (a : ESNCell_args)
  : ESNCell_args :=
  {| cell_input_dim := cell_input_dim a;
     cell_output_dim := cell_output_dim a;
     cell_w := cell_w a;
     cell_w_in := cell_w_in a;
     cell_w_bias := cell_w_bias a;
     cell_spectral_radius := sp;
     cell_bias_scaling := cell_bias_scaling a;
     cell_input_scaling := cell_input_scaling a;
     cell_nonlin_func := cell_nonlin_func a;
     cell_dtype := cell_dtype a |}.

(** Modelled from the spec: the reservoir engine ([ESNCell.py] is not among
    the sources).  It owns the three matrices and the scaling scalars it
    was constructed with; only the spectral radius can be reassigned. *)
Definition SpecReservoir : ReservoirEngine Sg :=
  {| Cell := cell_state;
     Hidden := HVec;
     ESNCell_init := fun a => Ok {| cs_args := a; cs_hidden := h0 |};
     ESNCell_call := spec_ESNCell_call;
     ESNCell_reset_hidden := spec_ESNCell_reset_hidden;
     ESNCell_spectral_radius := fun c => cell_spectral_radius (cs_args c);
     ESNCell_set_spectral_radius := fun sp m =>
       ({| mod_training := mod_training m;
           mod_state :=
             {| cs_args := with_spectral_radius sp (cs_args (mod_state m));
                cs_hidden := cs_hidden (mod_state m) |} |},
        Ok tt);
     ESNCell_hidden := cs_hidden;
     ESNCell_w := fun c => cell_w (cs_args c);
     ESNCell_w_in := fun c => cell_w_in (cs_args c) |}.

End SpecCollaborators.

Arguments rs_args {Sg Map} _.
Arguments rs_statistics {Sg Map} _.
Arguments rs_w_out {Sg Map} _.

(** ** An instance over the integers

    One feature per timestep, every value an integer.  The reservoir update
    is [w * h + w_in * u + w_bias]; the readout fits an offset, the sum of
    the residuals [y - h], and predicts [h + offset].  The generators share a
    counter: each generated matrix is the current count, which the
    generator then advances. *)

Module IntInstance.

Definition ZSig : Signature :=
  {| Matrix := Z; Scalar := Z; Func := unit; Algo := unit; Dtype := unit;
     UVec := Z; HVec := Z; YVec := Z; G := Z |}.

#[local] Existing Instance ZSig.

Definition zstep (a : @ESNCell_args ZSig) (h u : Z) : Z :=
  cell_w a * h + cell_w_in a * u + cell_w_bias a.

Definition zsolve (_ : @RRCell_args ZSig) (stats : list (Z * Z)) : result Z :=
  Ok (fold_right (fun p acc => (snd p - fst p) + acc) 0 stats).

Definition zapply (offset h : Z) : Z := h + offset.

Definition ZReservoir : ReservoirEngine ZSig :=
  @SpecReservoir ZSig 0 zstep.

Definition ZReadout : ReadoutTrainer ZSig :=
  @SpecReadout ZSig Z Z zsolve zapply.

(** A generator object: [generate] returns the count and advances it. *)
Definition counting : generator ZSig :=
  {| gen_generate := Some (fun _ g => (g + 1, Ok g));
     gen_call := None;
     gen_itself := 0 |}.

(** A plain function of the size: it returns the number of entries. *)
Definition entries : generator ZSig :=
  {| gen_generate := None;
     gen_call :=
       Some (fun sz g =>
               (g, Ok match sz with Shape2 r c => r * c | Shape1 n => n end));
     gen_itself := 0 |}.

(** A literal, already built matrix. *)
Definition literal (m : Z) : generator ZSig :=
  {| gen_generate := None; gen_call := None; gen_itself := m |}.

Definition zargs (gw gwin gb : generator ZSig) (washout : Z)
  : @ESN_args ZSig :=
  {| arg_input_dim := 1;
     arg_hidden_dim := 1;
     arg_output_dim := 1;
     arg_w_generator := gw;
     arg_win_generator := gwin;
     arg_wbias_generator := gb;
     arg_spectral_radius := 1;
     arg_bias_scaling := 1;
     arg_input_scaling := 1;
     arg_nonlin_func := tt;
     arg_learning_algo := tt;
     arg_ridge_param := 0;
     arg_with_bias := true;
     arg_softmax_output := false;
     arg_washout := washout;
     arg_dtype := tt |}.

(** The model built from three literal matrices [w = 0], [w_in = 1],
    [w_bias = 0], as its constructor leaves it: the hidden state at a
    timestep is the input at that timestep. *)
Definition fresh (washout : Z) : ESN ZReservoir ZReadout :=
  let a := zargs (literal 0) (literal 1) (literal 0) washout in
  @new_instance ZSig ZReservoir ZReadout a
    {| cs_args := ESNCell_kwargs a 0 1 0; cs_hidden := 0 |}
    {| rs_args := RRCell_kwargs a; rs_statistics := []; rs_w_out := None |}.

(** The model built with washout 2 from three generators sharing the
    counter, started at 7. *)
Definition counted : ESN ZReservoir ZReadout :=
  let a := zargs counting counting counting 2 in
  @new_instance ZSig ZReservoir ZReadout a
    {| cs_args := ESNCell_kwargs a 7 8 9; cs_hidden := 0 |}
    {| rs_args := RRCell_kwargs a; rs_statistics := []; rs_w_out := None |}.

(** One sequence of five timesteps with its targets, and one of eight. *)
Definition u5 : batch Z := [[1; 2; 3; 4; 5]].
Definition y5 : batch Z := [[11; 12; 13; 14; 15]].
Definition u8 : batch Z := [[1; 2; 3; 4; 5; 6; 7; 8]].
Definition y8 : batch Z := [[11; 12; 13; 14; 15; 16; 17; 18]].

(** The model after one training call on the sequence of eight timesteps,
    and after [finalize] on top of it. *)
Definition trained (washout : Z) : ESN ZReservoir ZReadout :=
  run [Forward u8 (Some y8) true] (fresh washout).

Definition fitted (washout : Z) : ESN ZReservoir ZReadout :=
  run [Forward u8 (Some y8) true; Finalize] (fresh washout).

(** The matrices a reservoir of this instance holds. *)
Definition matrices_of (c : Cell ZReservoir) : Z * Z * Z :=
  (cell_w (cs_args c), cell_w_in (cs_args c), cell_w_bias (cs_args c)).

(** A callable that raises after advancing the counter. *)
Definition failing : generator ZSig :=
  {| gen_generate := None;
     gen_call := Some (fun _ g => (g + 1, Raise RuntimeError));
     gen_itself := 0 |}.

(** The same reservoir, except that its call raises on a batch without
    sequences. *)
Definition StrictReservoir : ReservoirEngine ZSig :=
  {| Cell := Cell ZReservoir;
     Hidden := Hidden ZReservoir;
     ESNCell_init := ESNCell_init ZReservoir;
     ESNCell_call := fun u reset_state m =>
       match u with
       | [] => (m, Raise RuntimeError)
       | _ :: _ => ESNCell_call ZReservoir u reset_state m
       end;
     ESNCell_reset_hidden := ESNCell_reset_hidden ZReservoir;
     ESNCell_spectral_radius := ESNCell_spectral_radius ZReservoir;
     ESNCell_set_spectral_radius := ESNCell_set_spectral_radius ZReservoir;
     ESNCell_hidden := ESNCell_hidden ZReservoir;
     ESNCell_w := ESNCell_w ZReservoir;
     ESNCell_w_in := ESNCell_w_in ZReservoir |}.

(** The model of [fresh] on top of that reservoir. *)
Definition strict_fresh (washout : Z) : ESN StrictReservoir ZReadout :=
  let a := zargs (literal 0) (literal 1) (literal 0) washout in
  @new_instance ZSig StrictReservoir ZReadout a
    {| cs_args := ESNCell_kwargs a 0 1 0; cs_hidden := 0 |}
    {| rs_args := RRCell_kwargs a; rs_statistics := []; rs_w_out := None |}.

End IntInstance.

(** * Properties *)

(** ** Slicing *)

(** With a start that is not negative, [l[start:]] drops the first [start]
    elements (all of them when the sequence is shorter). *)
Lemma slice_from_skipn {A : Type} (start : Z) (l : list A) :
  0 <= start -> slice_from start l = skipn (Z.to_nat start) l.
Proof.
  intros Hstart. unfold slice_from, slice_start.
  destruct (Z.ltb_spec start 0) as [Hneg | _]; [lia |].
  destruct (Z.le_gt_cases start (Z.of_nat (length l))) as [Hle | Hgt].
  - rewrite Z.min_l by assumption. reflexivity.
  - rewrite Z.min_r by lia. rewrite Nat2Z.id, skipn_all.
    symmetry. apply skipn_all2. lia.
Qed.

Lemma slice_time_skipn {A : Type} (start : Z) (t : batch A) :
  0 <= start -> slice_time start t = map (skipn (Z.to_nat start)) t.
Proof.
  intros Hstart. unfold slice_time. apply map_ext.
  intros l. now apply slice_from_skipn.
Qed.

(** A start at or beyond the end leaves nothing. *)
Lemma slice_from_beyond {A : Type} (start : Z) (l : list A) :
  Z.of_nat (length l) <= start -> slice_from start l = [].
Proof.
  intros Hlen. rewrite slice_from_skipn by lia.
  apply skipn_all2. lia.
Qed.

(** A negative start keeps the last [- start] elements: the slice is not
    a washout any more. *)
Lemma slice_from_negative {A : Type} (start : Z) (l : list A) :
  start < 0 ->
  slice_from start l = skipn (length l - Z.to_nat (- start)) l.
Proof.
  intros Hneg. unfold slice_from, slice_start.
  destruct (Z.ltb_spec start 0) as [_ | Hge]; [| lia].
  f_equal. lia.
Qed.

Lemma same_time_lengths {A B : Type} {L : nat} {x : batch A} {y : batch B} :
  Forall (fun s => length s = L) x ->
  map (@length B) y = map (@length A) x ->
  Forall (fun s => length s = L) y.
Proof.
  intros Hx Hmap.
  assert (Hlen : Forall (fun n => n = L) (map (@length B) y)).
  { rewrite Hmap. apply Forall_map. exact Hx. }
  apply Forall_map in Hlen. exact Hlen.
Qed.

Section OrchestratorProperties.

Context {Sg : Signature}.
Variable RE : ReservoirEngine Sg.
Variable RO : ReadoutTrainer Sg.

(** ** The forward pass, case by case *)

Lemma forward_reservoir_raises {self : ESN RE RO} {u} y {reset_state c e} :
  ESNCell_call RE u reset_state (_esn_cell self) = (c, Raise e) ->
  forward u y reset_state self = (set_esn_cell c self, Raise e).
Proof.
  intros Hcell. unfold forward, bind, on_esn_cell.
  rewrite Hcell. reflexivity.
Qed.

Lemma forward_inference {self : ESN RE RO} {u} y {reset_state c hidden_states} :
  ESNCell_call RE u reset_state (_esn_cell self) = (c, Ok hidden_states) ->
  training self = false ->
  forward u y reset_state self =
  on_output (RRCell_call RO (slice_time (_washout self) hidden_states) None)
    (set_esn_cell c self).
Proof.
  intros Hcell Hmode. unfold forward, bind, on_esn_cell, gets.
  rewrite Hcell. simpl. rewrite Hmode. reflexivity.
Qed.

Lemma forward_training {self : ESN RE RO} {u} t {reset_state c hidden_states} :
  ESNCell_call RE u reset_state (_esn_cell self) = (c, Ok hidden_states) ->
  training self = true ->
  forward u (Some t) reset_state self =
  on_output
    (RRCell_call RO (slice_time (_washout self) hidden_states)
       (Some (slice_time (_washout self) t)))
    (set_esn_cell c self).
Proof.
  intros Hcell Hmode. unfold forward, bind, on_esn_cell, gets.
  rewrite Hcell. simpl. rewrite Hmode. reflexivity.
Qed.

Lemma forward_training_no_targets {self : ESN RE RO} {u reset_state c
    hidden_states} :
  ESNCell_call RE u reset_state (_esn_cell self) = (c, Ok hidden_states) ->
  training self = true ->
  forward u None reset_state self = (set_esn_cell c self, Raise TypeError).
Proof.
  intros Hcell Hmode. unfold forward, bind, on_esn_cell, gets.
  rewrite Hcell. simpl. rewrite Hmode. reflexivity.
Qed.

(** A call on a sub-module leaves the flag of the model alone. *)
Lemma on_esn_cell_training {A : Type} (f : M (nnModule (Cell RE)) A)
    (self : ESN RE RO) :
  training (fst (on_esn_cell f self)) = training self.
Proof. unfold on_esn_cell. destruct (f (_esn_cell self)). reflexivity. Qed.

Lemma on_output_training {A : Type} (f : M (nnModule (Readout RO)) A)
    (self : ESN RE RO) :
  training (fst (on_output f self)) = training self.
Proof. unfold on_output. destruct (f (_output self)). reflexivity. Qed.

Lemma forward_training_flag (self : ESN RE RO) u y reset_state :
  training (fst (forward u y reset_state self)) = training self.
Proof.
  destruct (ESNCell_call RE u reset_state (_esn_cell self)) as [c [hs | e]] eqn:Hcell.
  - destruct (training self) eqn:Hmode.
    + destruct y as [t |].
      * rewrite (forward_training t Hcell Hmode).
        rewrite on_output_training. exact Hmode.
      * rewrite (forward_training_no_targets Hcell Hmode). exact Hmode.
    + rewrite (forward_inference y Hcell Hmode).
      rewrite on_output_training. exact Hmode.
  - rewrite (forward_reservoir_raises y Hcell). reflexivity.
Qed.

(** C1.  In a forward call on a batch whose sequences have [L] timesteps,
    with a washout [W] such that [0 <= W < L], the readout receives the
    hidden states of the timesteps [W .. L-1] and nothing else: [L - W]
    timesteps per sequence, the state at position [i] being the one the
    reservoir produced at timestep [W + i], the first [W] states being left
    out.  In training mode the targets are cut by the same slice before the
    readout receives them. *)
Theorem forward_washout_window :
  forall (self : ESN RE RO) (u : batch UVec) (y : option (batch YVec))
         (reset_state : bool) (c : nnModule (Cell RE))
         (hidden_states : batch HVec) (L : nat),
    ESNCell_call RE u reset_state (_esn_cell self) = (c, Ok hidden_states) ->
    Forall (fun s => length s = L) u ->
    map (@length HVec) hidden_states = map (@length UVec) u ->
    0 <= _washout self < Z.of_nat L ->
    let W := Z.to_nat (_washout self) in
    let seen := map (skipn W) hidden_states in
    forward u y reset_state self =
      (if negb (training self) then
         on_output (RRCell_call RO seen None) (set_esn_cell c self)
       else
         match y with
         | Some t =>
             on_output (RRCell_call RO seen (Some (map (skipn W) t)))
               (set_esn_cell c self)
         | None => (set_esn_cell c self, Raise TypeError)
         end)
    /\ Forall (fun s => length s = (L - W)%nat) seen
    /\ (forall (b : nat) (s : list HVec),
          nth_error hidden_states b = Some s ->
          nth_error seen b = Some (skipn W s)
          /\ s = firstn W s ++ skipn W s
          /\ length (firstn W s) = W
          /\ forall i : nat, nth_error (skipn W s) i = nth_error s (W + i)).
Proof.
  intros self u y reset_state c hidden_states L Hcell Hu Hshape HW W seen.
  assert (Hhs : Forall (fun s => length s = L) hidden_states)
    by exact (same_time_lengths Hu Hshape).
  split; [| split].
  - destruct (training self) eqn:Hmode; simpl.
    + destruct y as [t |].
      * rewrite (forward_training t Hcell Hmode).
        rewrite !slice_time_skipn by lia. reflexivity.
      * apply (forward_training_no_targets Hcell Hmode).
    + rewrite (forward_inference y Hcell Hmode).
      rewrite slice_time_skipn by lia. reflexivity.
  - unfold seen. apply Forall_map.
    apply Forall_impl with (2 := Hhs).
    intros s Hs. rewrite length_skipn, Hs. reflexivity.
  - intros b s Hb.
    assert (Hs : length s = L).
    { rewrite Forall_forall in Hhs. apply Hhs.
      apply nth_error_In with (n := b). exact Hb. }
    repeat split.
    + unfold seen. apply map_nth_error. exact Hb.
    + symmetry. apply firstn_skipn.
    + rewrite length_firstn. unfold W. lia.
    + intros i. apply nth_error_skipn.
Qed.

(** In inference mode [forward] does not look at [y]. *)
Lemma forward_inference_any_targets (self : ESN RE RO) u y1 y2 reset_state :
  training self = false ->
  forward u y1 reset_state self = forward u y2 reset_state self.
Proof.
  intros Hmode.
  destruct (ESNCell_call RE u reset_state (_esn_cell self))
    as [c [hs | e]] eqn:Hcell.
  - rewrite (forward_inference y1 Hcell Hmode).
    rewrite (forward_inference y2 Hcell Hmode). reflexivity.
  - rewrite (forward_reservoir_raises y1 Hcell).
    rewrite (forward_reservoir_raises y2 Hcell). reflexivity.
Qed.

(** C10.  In inference mode the outcome of [forward] (the value returned or
    the exception raised, and the state of the whole model after the call)
    is the same whatever is passed for [y]. *)
Theorem inference_ignores_targets :
  forall (self : ESN RE RO) (u : batch UVec) (y1 y2 : option (batch YVec))
         (reset_state : bool),
    training self = false ->
    forward u y1 reset_state self = forward u y2 reset_state self.
Proof.
  intros self u y1 y2 reset_state Hmode.
  now apply forward_inference_any_targets.
Qed.

(** C9.  [reset_hidden] acts on the reservoir engine only: the readout (its
    fitted map, its statistics, its own flag) and the training flag of the
    model are what they were, and the reservoir is in the state its own
    [reset_hidden] leaves it in. *)
Theorem reset_hidden_frame :
  forall self : ESN RE RO,
    _output (fst (reset_hidden self)) = _output self
    /\ w_out (fst (reset_hidden self)) = w_out self
    /\ training (fst (reset_hidden self)) = training self
    /\ _esn_cell (fst (reset_hidden self))
       = fst (ESNCell_reset_hidden RE (_esn_cell self))
    /\ snd (reset_hidden self)
       = snd (ESNCell_reset_hidden RE (_esn_cell self)).
Proof.
  intros self. unfold reset_hidden, on_esn_cell, w_out.
  destruct (ESNCell_reset_hidden RE (_esn_cell self)) as [c r].
  simpl. repeat split.
Qed.

(** ** The training mode *)

(** C5.  The training flag is a machine with two states: whatever the call,
    the flag after it is given by [mode_step]; a [finalize] that returns has
    first run the solve of the readout and then switched the model (and the
    readout) to inference; a [reset] that returns has first reset the
    readout and then switched the model (and the readout) to training; a
    [forward] call never changes the flag.  Both transitions are taken:
    when the solve of the readout returns, [finalize] returns and the model
    is in inference mode; when the reset of the readout returns, [reset]
    returns and the model is in training mode; when the readout raises, the
    call raises the same exception and the flag stays. *)
Theorem training_mode_two_state_machine :
  (forall (c : call) (self : ESN RE RO),
      training (fst (exec c self))
      = mode_step c (is_ok (snd (exec c self))) (training self))
  /\ (forall self self' : ESN RE RO,
        finalize self = (self', Ok tt) ->
        exists o,
          RRCell_finalize RO (_output self) = (o, Ok tt)
          /\ _output self' = mod_train false o
          /\ training self' = false)
  /\ (forall self self' : ESN RE RO,
        reset self = (self', Ok tt) ->
        exists o,
          RRCell_reset RO (_output self) = (o, Ok tt)
          /\ _output self' = mod_train true o
          /\ training self' = true)
  /\ (forall (self : ESN RE RO) u y reset_state,
        training (fst (forward u y reset_state self)) = training self)
  /\ (forall (self : ESN RE RO) (o : nnModule (Readout RO)),
        RRCell_finalize RO (_output self) = (o, Ok tt) ->
        snd (finalize self) = Ok tt
        /\ training (fst (finalize self)) = false
        /\ _output (fst (finalize self)) = mod_train false o)
  /\ (forall (self : ESN RE RO) (o : nnModule (Readout RO)),
        RRCell_reset RO (_output self) = (o, Ok tt) ->
        snd (reset self) = Ok tt
        /\ training (fst (reset self)) = true
        /\ _output (fst (reset self)) = mod_train true o)
  /\ (forall (self : ESN RE RO) (o : nnModule (Readout RO)) (e : exn),
        RRCell_finalize RO (_output self) = (o, Raise e) ->
        snd (finalize self) = Raise e
        /\ training (fst (finalize self)) = training self)
  /\ (forall (self : ESN RE RO) (o : nnModule (Readout RO)) (e : exn),
        RRCell_reset RO (_output self) = (o, Raise e) ->
        snd (reset self) = Raise e
        /\ training (fst (reset self)) = training self).
Proof.
  split; [| split; [| split; [| split; [| split; [| split; [| split]]]]]].
  - intros c self. destruct c as [u y reset_state | | | | sp];
      unfold exec, bind.
    + rewrite <- (forward_training_flag self u y reset_state).
      destruct (forward u y reset_state self) as [s' [o | e]]; reflexivity.
    + unfold reset, bind, on_output.
      destruct (RRCell_reset RO (_output self)) as [o [[] | e]]; reflexivity.
    + unfold finalize, bind, on_output.
      destruct (RRCell_finalize RO (_output self)) as [o [[] | e]];
        reflexivity.
    + unfold reset_hidden, on_esn_cell.
      destruct (ESNCell_reset_hidden RE (_esn_cell self)) as [c [[] | e]];
        reflexivity.
    + unfold set_spectral_radius, on_esn_cell.
      destruct (ESNCell_set_spectral_radius RE sp (_esn_cell self))
        as [c [[] | e]]; reflexivity.
  - intros self self'. unfold finalize, bind, on_output.
    destruct (RRCell_finalize RO (_output self)) as [o [[] | e]];
      intros Hfin; inversion Hfin; subst.
    exists o. repeat split.
  - intros self self'. unfold reset, bind, on_output.
    destruct (RRCell_reset RO (_output self)) as [o [[] | e]];
      intros Hres; inversion Hres; subst.
    exists o. repeat split.
  - intros self u y reset_state. apply forward_training_flag.
  - intros self o Hreadout. unfold finalize, bind, on_output.
    rewrite Hreadout. repeat split.
  - intros self o Hreadout. unfold reset, bind, on_output.
    rewrite Hreadout. repeat split.
  - intros self o e Hreadout. unfold finalize, bind, on_output.
    rewrite Hreadout. repeat split.
  - intros self o e Hreadout. unfold reset, bind, on_output.
    rewrite Hreadout. repeat split.
Qed.

(** ** Targets against the mode *)

(** C2, as the code has it.  In inference mode the targets are ignored: a
    call with targets behaves as the same call without them, and once the
    reservoir engine has returned it is the call of the readout on the
    sliced states with no targets ([None]), whose outcome is the outcome of
    [forward].  In training
    mode a call without targets never returns; once the reservoir engine has
    run, the exception is the [TypeError] of subscripting [None], the
    readout is not called and the reservoir keeps the state it reached. *)
Theorem forward_targets_mismatch :
  forall (self : ESN RE RO) (u : batch UVec) (reset_state : bool),
    (training self = false ->
     forall t : batch YVec,
       forward u (Some t) reset_state self = forward u None reset_state self
       /\ (forall c hidden_states,
              ESNCell_call RE u reset_state (_esn_cell self)
              = (c, Ok hidden_states) ->
              forward u (Some t) reset_state self
              = on_output
                  (RRCell_call RO
                     (slice_time (_washout self) hidden_states) None)
                  (set_esn_cell c self))
       /\ (forall c e,
              ESNCell_call RE u reset_state (_esn_cell self) = (c, Raise e) ->
              forward u (Some t) reset_state self
              = (set_esn_cell c self, Raise e)))
    /\ (training self = true ->
        is_ok (snd (forward u None reset_state self)) = false
        /\ forall c hidden_states,
            ESNCell_call RE u reset_state (_esn_cell self)
            = (c, Ok hidden_states) ->
            forward u None reset_state self
            = (set_esn_cell c self, Raise TypeError)).
Proof.
  intros self u reset_state. split.
  - intros Hmode t. split; [| split].
    + now apply forward_inference_any_targets.
    + intros c hs Hcell. exact (forward_inference (Some t) Hcell Hmode).
    + intros c e Hcell. exact (forward_reservoir_raises (Some t) Hcell).
  - intros Hmode. split.
    + destruct (ESNCell_call RE u reset_state (_esn_cell self))
        as [c [hs | e]] eqn:Hcell.
      * rewrite (forward_training_no_targets Hcell Hmode). reflexivity.
      * rewrite (forward_reservoir_raises None Hcell). reflexivity.
    + intros c hs Hcell. exact (forward_training_no_targets Hcell Hmode).
Qed.

(** ** A washout that covers the whole sequence *)

(** C3, as the code has it.  When the washout is at least the number [L] of
    timesteps, [forward] adds no check and no exception of its own: the
    readout is called with a trajectory of zero timesteps per sequence (in
    training mode with the targets cut by the same slice, empty as well when
    they have [L] timesteps), and the call returns or raises whatever the
    readout does. *)
Theorem forward_washout_beyond_sequence :
  forall (self : ESN RE RO) (u : batch UVec) (y : option (batch YVec))
         (reset_state : bool) (c : nnModule (Cell RE))
         (hidden_states : batch HVec) (L : nat),
    ESNCell_call RE u reset_state (_esn_cell self) = (c, Ok hidden_states) ->
    Forall (fun s => length s = L) u ->
    map (@length HVec) hidden_states = map (@length UVec) u ->
    Z.of_nat L <= _washout self ->
    let seen := map (fun _ : list HVec => @nil HVec) hidden_states in
    forward u y reset_state self =
      (if negb (training self) then
         on_output (RRCell_call RO seen None) (set_esn_cell c self)
       else
         match y with
         | Some t =>
             on_output
               (RRCell_call RO seen (Some (slice_time (_washout self) t)))
               (set_esn_cell c self)
         | None => (set_esn_cell c self, Raise TypeError)
         end)
    /\ (forall t : batch YVec,
          Forall (fun s => length s = L) t ->
          slice_time (_washout self) t = map (fun _ => []) t).
Proof.
  intros self u y reset_state c hidden_states L Hcell Hu Hshape HW seen.
  assert (Hempty : forall (A : Type) (t : batch A),
             Forall (fun s => length s = L) t ->
             slice_time (_washout self) t = map (fun _ => []) t).
  { intros A t Ht. unfold slice_time. apply map_ext_Forall.
    apply Forall_impl with (2 := Ht). intros s Hs.
    apply slice_from_beyond. lia. }
  assert (Hseen : slice_time (_washout self) hidden_states = seen).
  { apply Hempty. exact (same_time_lengths Hu Hshape). }
  split.
  - destruct (training self) eqn:Hmode; simpl.
    + destruct y as [t |].
      * rewrite (forward_training t Hcell Hmode), Hseen. reflexivity.
      * apply (forward_training_no_targets Hcell Hmode).
    + rewrite (forward_inference y Hcell Hmode), Hseen. reflexivity.
  - intros t. apply Hempty.
Qed.

End OrchestratorProperties.

(** ** Construction *)

Section ConstructionProperties.

Context {Sg : Signature}.
Variable RE : ReservoirEngine Sg.
Variable RO : ReadoutTrainer Sg.

(** The inline dispatch of [_generate_matrices] is [resolve], once per slot
    and in the order of the slots. *)
Lemma generate_matrices_resolve (hidden_dim input_dim : Z)
    (gw gwin gb : generator Sg) :
  _generate_matrices hidden_dim input_dim gw gwin gb =
  (w <- resolve gw (Shape2 hidden_dim hidden_dim) ;;
   w_in <- resolve gwin (Shape2 hidden_dim input_dim) ;;
   w_bias <- resolve gb (Shape1 hidden_dim) ;;
   ret (w, w_in, w_bias)).
Proof. reflexivity. Qed.

Lemma resolve_dispatch (g : generator Sg) (size : shape) :
  dispatch g size (resolve g size).
Proof.
  unfold resolve.
  destruct (gen_generate g) as [generate |] eqn:Hgen.
  - now apply dispatch_generate.
  - destruct (gen_call g) as [invoke |] eqn:Hcall.
    + now apply dispatch_call.
    + now apply dispatch_itself.
Qed.

Lemma resolve_literal (g : generator Sg) (size : shape) (g0 : G) :
  gen_generate g = None -> gen_call g = None ->
  resolve g size g0 = (g0, Ok (gen_itself g)).
Proof. intros Hgen Hcall. unfold resolve. rewrite Hgen, Hcall. reflexivity. Qed.

(** What a successful construction went through. *)
Lemma init_inversion (a : ESN_args) (g0 g' : G) (m : ESN RE RO) :
  __init__ RE RO a g0 = (g', Ok m) ->
  exists g1 g2 w w_in w_bias c o,
    resolve (arg_w_generator a)
      (Shape2 (arg_hidden_dim a) (arg_hidden_dim a)) g0 = (g1, Ok w)
    /\ resolve (arg_win_generator a)
         (Shape2 (arg_hidden_dim a) (arg_input_dim a)) g1 = (g2, Ok w_in)
    /\ resolve (arg_wbias_generator a)
         (Shape1 (arg_hidden_dim a)) g2 = (g', Ok w_bias)
    /\ ESNCell_init RE (ESNCell_kwargs a w w_in w_bias) = Ok c
    /\ RRCell_init RO (RRCell_kwargs a) = Ok o
    /\ m = new_instance a c o.
Proof.
  unfold __init__. rewrite generate_matrices_resolve. unfold bind, construct, ret.
  destruct (resolve (arg_w_generator a) _ g0) as [g1 [w |]] eqn:Hrw;
    [| discriminate].
  destruct (resolve (arg_win_generator a) _ g1) as [g2 [w_in |]] eqn:Hrin;
    [| discriminate].
  destruct (resolve (arg_wbias_generator a) _ g2) as [g3 [w_bias |]] eqn:Hrb;
    [| discriminate].
  destruct (ESNCell_init RE (ESNCell_kwargs a w w_in w_bias)) as [c |] eqn:Hc;
    [| discriminate].
  destruct (RRCell_init RO (RRCell_kwargs a)) as [o |] eqn:Ho;
    [| discriminate].
  intros Hinit. inversion Hinit; subst.
  exists g1, g2, w, w_in, w_bias, c, o. repeat split; assumption || reflexivity.
Qed.

(** C4.  Each of the three slots is resolved by the same three rules, at the
    size of the slot: [generate] when the value has it, else the value
    invoked, else the value itself.  Three literal matrices are returned as
    they are, no generator state is touched, and they are the very objects
    handed to the reservoir engine. *)
Theorem generate_matrices_dispatch :
  forall (hidden_dim input_dim : Z) (gw gwin gb : generator Sg),
    (exists rw rwin rb : M G Matrix,
        dispatch gw (Shape2 hidden_dim hidden_dim) rw
        /\ dispatch gwin (Shape2 hidden_dim input_dim) rwin
        /\ dispatch gb (Shape1 hidden_dim) rb
        /\ _generate_matrices hidden_dim input_dim gw gwin gb =
           (w <- rw ;; w_in <- rwin ;; w_bias <- rb ;; ret (w, w_in, w_bias)))
    /\ (gen_generate gw = None -> gen_call gw = None ->
        gen_generate gwin = None -> gen_call gwin = None ->
        gen_generate gb = None -> gen_call gb = None ->
        (forall g0 : G,
            _generate_matrices hidden_dim input_dim gw gwin gb g0 =
            (g0, Ok (gen_itself gw, gen_itself gwin, gen_itself gb)))
        /\ (forall (a : ESN_args) (g0 g' : G) (m : ESN RE RO),
               arg_w_generator a = gw ->
               arg_win_generator a = gwin ->
               arg_wbias_generator a = gb ->
               __init__ RE RO a g0 = (g', Ok m) ->
               g' = g0
               /\ ESNCell_init RE
                    (ESNCell_kwargs a (gen_itself gw) (gen_itself gwin)
                       (gen_itself gb))
                  = Ok (mod_state (_esn_cell m)))).
Proof.
  intros hidden_dim input_dim gw gwin gb. split.
  - exists (resolve gw (Shape2 hidden_dim hidden_dim)),
      (resolve gwin (Shape2 hidden_dim input_dim)),
      (resolve gb (Shape1 hidden_dim)).
    repeat split; try apply resolve_dispatch.
  - intros Hw1 Hw2 Hin1 Hin2 Hb1 Hb2. split.
    + intros g0. rewrite generate_matrices_resolve. unfold bind.
      rewrite !resolve_literal by assumption. reflexivity.
    + intros a g0 g' m Ha1 Ha2 Ha3 Hinit. subst gw gwin gb.
      apply init_inversion in Hinit.
      destruct Hinit as (g1 & g2 & w & w_in & w_bias & c & o
                         & Hrw & Hrin & Hrb & Hc & Ho & Hm).
      rewrite resolve_literal in Hrw by assumption.
      inversion Hrw; subst g1 w.
      rewrite resolve_literal in Hrin by assumption.
      inversion Hrin; subst g2 w_in.
      rewrite resolve_literal in Hrb by assumption.
      inversion Hrb; subst g' w_bias.
      split; [reflexivity |]. rewrite Hm. exact Hc.
Qed.

(** Calls on a constructed model leave the state of the generators alone. *)
Lemma run_world_generators (cs : list call) (wd : world RE RO) :
  generators (run_world cs wd) = generators wd.
Proof.
  revert wd. induction cs as [| c cs IH]; intros wd; simpl.
  - reflexivity.
  - rewrite IH. unfold exec_world.
    destruct (exec c (model wd)). reflexivity.
Qed.

(** What a call does to the reservoir engine and to the generators kept as
    attributes. *)
Lemma exec_esn_cell (c : call) (self : ESN RE RO) :
  match c with
  | Forward u _ reset_state =>
      mod_state (_esn_cell (fst (exec c self)))
      = mod_state (fst (ESNCell_call RE u reset_state (_esn_cell self)))
  | ResetHidden =>
      mod_state (_esn_cell (fst (exec c self)))
      = mod_state (fst (ESNCell_reset_hidden RE (_esn_cell self)))
  | SetSpectralRadius sp =>
      mod_state (_esn_cell (fst (exec c self)))
      = mod_state (fst (ESNCell_set_spectral_radius RE sp (_esn_cell self)))
  | Reset | Finalize =>
      mod_state (_esn_cell (fst (exec c self))) = mod_state (_esn_cell self)
  end.
Proof.
  destruct c as [u y reset_state | | | | sp]; unfold exec, bind.
  - unfold forward, bind, on_esn_cell, on_output, gets, subscript_time.
    destruct (ESNCell_call RE u reset_state (_esn_cell self))
      as [c [hs | e]]; simpl; [| reflexivity].
    destruct (training self); simpl.
    + destruct y as [t |]; simpl; [| reflexivity].
      destruct (RRCell_call RO _ _ (_output self)) as [o [v | e]];
        reflexivity.
    + destruct (RRCell_call RO _ _ (_output self)) as [o [v | e]];
        reflexivity.
  - unfold reset, bind, on_output.
    destruct (RRCell_reset RO (_output self)) as [o [[] | e]]; reflexivity.
  - unfold finalize, bind, on_output.
    destruct (RRCell_finalize RO (_output self)) as [o [[] | e]];
      reflexivity.
  - unfold reset_hidden, on_esn_cell.
    destruct (ESNCell_reset_hidden RE (_esn_cell self)) as [c [[] | e]];
      reflexivity.
  - unfold set_spectral_radius, on_esn_cell.
    destruct (ESNCell_set_spectral_radius RE sp (_esn_cell self))
      as [c [[] | e]]; reflexivity.
Qed.

(** Construction is the three resolutions, in the order of the slots, then
    the two constructors. *)
Lemma init_sequence (a : ESN_args) (g0 : G) :
  __init__ RE RO a g0 =
  (mw <- resolve (arg_w_generator a)
           (Shape2 (arg_hidden_dim a) (arg_hidden_dim a)) ;;
   mw_in <- resolve (arg_win_generator a)
              (Shape2 (arg_hidden_dim a) (arg_input_dim a)) ;;
   mw_bias <- resolve (arg_wbias_generator a) (Shape1 (arg_hidden_dim a)) ;;
   esn_cell <- construct
                 (ESNCell_init RE (ESNCell_kwargs a mw mw_in mw_bias)) ;;
   output <- construct (RRCell_init RO (RRCell_kwargs a)) ;;
   ret (new_instance a esn_cell output)) g0.
Proof.
  unfold __init__. rewrite generate_matrices_resolve. unfold bind.
  destruct (resolve (arg_w_generator a) _ g0) as [g1 [mw | e]];
    [| reflexivity].
  destruct (resolve (arg_win_generator a) _ g1) as [g2 [mw_in | e]];
    [| reflexivity].
  destruct (resolve (arg_wbias_generator a) _ g2) as [g3 [mw_bias | e]];
    reflexivity.
Qed.

(** What the reservoir engine keeps through its own operations is kept by
    every sequence of calls on the model. *)
Lemma run_keeps_reservoir (X : Type) (kept : Cell RE -> X) :
  (forall u reset_state c,
      kept (mod_state (fst (ESNCell_call RE u reset_state c)))
      = kept (mod_state c)) ->
  (forall c,
      kept (mod_state (fst (ESNCell_reset_hidden RE c)))
      = kept (mod_state c)) ->
  (forall sp c,
      kept (mod_state (fst (ESNCell_set_spectral_radius RE sp c)))
      = kept (mod_state c)) ->
  forall (cs : list call) (self : ESN RE RO),
    kept (mod_state (_esn_cell (run cs self)))
    = kept (mod_state (_esn_cell self)).
Proof.
  intros Hcall Hreset Hset cs.
  induction cs as [| c cs IH]; intros self; simpl.
  - reflexivity.
  - rewrite IH. pose proof (exec_esn_cell c self) as Hexec.
    destruct c as [u y reset_state | | | | sp]; rewrite Hexec.
    + apply Hcall.
    + reflexivity.
    + reflexivity.
    + apply Hreset.
    + apply Hset.
Qed.

(** No call looks at the generators the model retains: with other values
    in these attributes the call does the same and returns the same. *)
Lemma exec_set_generators (gw gwin gb : generator Sg) (c : call)
    (self : ESN RE RO) :
  exec c (set_generators gw gwin gb self)
  = (set_generators gw gwin gb (fst (exec c self)), snd (exec c self)).
Proof.
  destruct c as [u y reset_state | | | | sp];
    unfold exec, forward, reset, finalize, reset_hidden, set_spectral_radius,
      bind, on_esn_cell, on_output, train, modify, gets, subscript_time,
      ret, raise; simpl.
  - destruct (ESNCell_call RE u reset_state (_esn_cell self))
      as [c [hs | e]]; simpl; [| reflexivity].
    destruct (training self); simpl.
    + destruct y as [t |]; simpl; [| reflexivity].
      destruct (RRCell_call RO _ _ (_output self)) as [o [v | e]];
        reflexivity.
    + destruct (RRCell_call RO _ _ (_output self)) as [o [v | e]];
        reflexivity.
  - destruct (RRCell_reset RO (_output self)) as [o [[] | e]]; reflexivity.
  - destruct (RRCell_finalize RO (_output self)) as [o [[] | e]];
      reflexivity.
  - destruct (ESNCell_reset_hidden RE (_esn_cell self)) as [c [[] | e]];
      reflexivity.
  - destruct (ESNCell_set_spectral_radius RE sp (_esn_cell self))
      as [c [[] | e]]; reflexivity.
Qed.

Lemma run_set_generators (gw gwin gb : generator Sg) (cs : list call)
    (self : ESN RE RO) :
  run cs (set_generators gw gwin gb self)
  = set_generators gw gwin gb (run cs self).
Proof.
  revert self. induction cs as [| c cs IH]; intros self; simpl.
  - reflexivity.
  - rewrite exec_set_generators. simpl. apply IH.
Qed.

End ConstructionProperties.

(** The reservoir engine of the specification keeps the matrices it was
    constructed with through its own operations. *)
Lemma SpecReservoir_keeps_matrices {Sg : Signature} (h0 : HVec)
    (step : ESNCell_args -> HVec -> UVec -> HVec)
    (RO : ReadoutTrainer Sg) (cs : list call)
    (self : ESN (SpecReservoir h0 step) RO) :
  cell_w (cs_args (mod_state (_esn_cell (run cs self))))
  = cell_w (cs_args (mod_state (_esn_cell self)))
  /\ cell_w_in (cs_args (mod_state (_esn_cell (run cs self))))
     = cell_w_in (cs_args (mod_state (_esn_cell self)))
  /\ cell_w_bias (cs_args (mod_state (_esn_cell (run cs self))))
     = cell_w_bias (cs_args (mod_state (_esn_cell self))).
Proof.
  unshelve epose proof
    (run_keeps_reservoir (SpecReservoir h0 step) RO _
       (fun c : Cell (SpecReservoir h0 step) =>
          (cell_w (cs_args c), cell_w_in (cs_args c),
           cell_w_bias (cs_args c)))
       _ _ _ cs self) as Hrun.
  - intros u reset_state c. simpl. unfold spec_ESNCell_call.
    destruct (run_batch _ _ _ u). reflexivity.
  - intros c. reflexivity.
  - intros sp c. reflexivity.
  - simpl in Hrun. inversion Hrun. repeat split; assumption.
Qed.

Section ResolutionProperties.

Context {Sg : Signature}.
Variable RE : ReservoirEngine Sg.
Variable RO : ReadoutTrainer Sg.

(** C8.  Construction resolves the three slots, once each, the internal
    matrix first, then the input matrix from the state the first generator
    left, then the bias from the state the second left, and hands the
    results to the reservoir engine: it is these three resolutions followed
    by the two constructors, so it returns a model whenever they all return,
    and a construction that returned went through them.  After that no
    resolution happens again: no call has the state of the generators at
    hand, no call looks at the generators the model retains (with others in
    their place every call does and returns the same), and whatever the
    reservoir engine keeps through its own operations is kept by every
    sequence of calls on the model, training calls included; with the
    reservoir engine of the specification, the three matrices it holds after
    any sequence of calls are the resolved ones. *)
Theorem matrices_resolved_once_in_order :
  (forall (a : ESN_args) (g0 : G),
      __init__ RE RO a g0 =
      (mw <- resolve (arg_w_generator a)
               (Shape2 (arg_hidden_dim a) (arg_hidden_dim a)) ;;
       mw_in <- resolve (arg_win_generator a)
                  (Shape2 (arg_hidden_dim a) (arg_input_dim a)) ;;
       mw_bias <- resolve (arg_wbias_generator a)
                    (Shape1 (arg_hidden_dim a)) ;;
       esn_cell <- construct
                     (ESNCell_init RE (ESNCell_kwargs a mw mw_in mw_bias)) ;;
       output <- construct (RRCell_init RO (RRCell_kwargs a)) ;;
       ret (new_instance a esn_cell output)) g0)
  /\ (forall (a : ESN_args) (g0 g1 g2 g3 : G) (mw mw_in mw_bias : Matrix)
             (c : Cell RE) (o : Readout RO),
        resolve (arg_w_generator a)
          (Shape2 (arg_hidden_dim a) (arg_hidden_dim a)) g0 = (g1, Ok mw) ->
        resolve (arg_win_generator a)
          (Shape2 (arg_hidden_dim a) (arg_input_dim a)) g1 = (g2, Ok mw_in) ->
        resolve (arg_wbias_generator a)
          (Shape1 (arg_hidden_dim a)) g2 = (g3, Ok mw_bias) ->
        ESNCell_init RE (ESNCell_kwargs a mw mw_in mw_bias) = Ok c ->
        RRCell_init RO (RRCell_kwargs a) = Ok o ->
        __init__ RE RO a g0 = (g3, Ok (new_instance a c o)))
  /\ (forall (a : ESN_args) (g0 g' : G) (m : ESN RE RO),
        __init__ RE RO a g0 = (g', Ok m) ->
        exists (g1 g2 : G) (mw mw_in mw_bias : Matrix),
          resolve (arg_w_generator a)
            (Shape2 (arg_hidden_dim a) (arg_hidden_dim a)) g0 = (g1, Ok mw)
          /\ resolve (arg_win_generator a)
               (Shape2 (arg_hidden_dim a) (arg_input_dim a)) g1
             = (g2, Ok mw_in)
          /\ resolve (arg_wbias_generator a)
               (Shape1 (arg_hidden_dim a)) g2 = (g', Ok mw_bias)
          /\ ESNCell_init RE (ESNCell_kwargs a mw mw_in mw_bias)
             = Ok (mod_state (_esn_cell m)))
  /\ (forall (cs : list call) (wd : world RE RO),
        generators (run_world cs wd) = generators wd)
  /\ (forall (gw gwin gb : generator Sg) (self : ESN RE RO),
        (forall c : call,
            exec c (set_generators gw gwin gb self)
            = (set_generators gw gwin gb (fst (exec c self)),
               snd (exec c self)))
        /\ (forall cs : list call,
              run cs (set_generators gw gwin gb self)
              = set_generators gw gwin gb (run cs self)))
  /\ (forall (X : Type) (kept : Cell RE -> X),
        (forall u reset_state c,
            kept (mod_state (fst (ESNCell_call RE u reset_state c)))
            = kept (mod_state c)) ->
        (forall c,
            kept (mod_state (fst (ESNCell_reset_hidden RE c)))
            = kept (mod_state c)) ->
        (forall sp c,
            kept (mod_state (fst (ESNCell_set_spectral_radius RE sp c)))
            = kept (mod_state c)) ->
        forall (cs : list call) (self : ESN RE RO),
          kept (mod_state (_esn_cell (run cs self)))
          = kept (mod_state (_esn_cell self)))
  /\ (forall (h0 : HVec) (step : ESNCell_args -> HVec -> UVec -> HVec)
             (a : ESN_args) (g0 g1 g2 g3 : G) (mw mw_in mw_bias : Matrix)
             (o : Readout RO) (cs : list call),
        resolve (arg_w_generator a)
          (Shape2 (arg_hidden_dim a) (arg_hidden_dim a)) g0 = (g1, Ok mw) ->
        resolve (arg_win_generator a)
          (Shape2 (arg_hidden_dim a) (arg_input_dim a)) g1 = (g2, Ok mw_in) ->
        resolve (arg_wbias_generator a)
          (Shape1 (arg_hidden_dim a)) g2 = (g3, Ok mw_bias) ->
        RRCell_init RO (RRCell_kwargs a) = Ok o ->
        exists m : ESN (SpecReservoir h0 step) RO,
          __init__ (SpecReservoir h0 step) RO a g0 = (g3, Ok m)
          /\ w (run cs m) = mw
          /\ w_in (run cs m) = mw_in
          /\ cell_w_bias (cs_args (mod_state (_esn_cell (run cs m))))
             = mw_bias).
Proof.
  split; [| split; [| split; [| split; [| split; [| split]]]]].
  - apply init_sequence.
  - intros a g0 g1 g2 g3 mw mw_in mw_bias c o Hw Hin Hb Hc Ho.
    rewrite init_sequence. unfold bind, construct, ret.
    now rewrite Hw, Hin, Hb, Hc, Ho.
  - intros a g0 g' m Hinit. apply init_inversion in Hinit.
    destruct Hinit as (g1 & g2 & mw & mw_in & mw_bias & c & o
                       & Hrw & Hrin & Hrb & Hc & Ho & Hm).
    exists g1, g2, mw, mw_in, mw_bias. rewrite Hm.
    repeat split; assumption.
  - apply run_world_generators.
  - intros gw gwin gb self. split.
    + intros c. apply exec_set_generators.
    + intros cs. apply run_set_generators.
  - apply run_keeps_reservoir.
  - intros h0 step a g0 g1 g2 g3 mw mw_in mw_bias o cs Hw Hin Hb Ho.
    exists (@new_instance Sg (SpecReservoir h0 step) RO a
              {| cs_args := ESNCell_kwargs a mw mw_in mw_bias;
                 cs_hidden := h0 |} o).
    split.
    + rewrite init_sequence. unfold bind, construct, ret.
      rewrite Hw, Hin, Hb, Ho. reflexivity.
    + destruct (SpecReservoir_keeps_matrices h0 step RO cs
                  (@new_instance Sg (SpecReservoir h0 step) RO a
                     {| cs_args := ESNCell_kwargs a mw mw_in mw_bias;
                        cs_hidden := h0 |} o))
        as [Hkw [Hkin Hkb]].
      unfold w, w_in. simpl in *. rewrite Hkw, Hkin, Hkb. repeat split.
Qed.

End ResolutionProperties.

(** ** With the readout of the specification *)

Section SpecReadoutProperties.

Context {Sg : Signature}.
Variable RE : ReservoirEngine Sg.
Variables OVec Map : Type.
Variable solve : RRCell_args -> list (HVec * YVec) -> result Map.
Variable apply_map : Map -> HVec -> OVec.

Local Abbreviation RO := (SpecReadout OVec Map solve apply_map).

(** The statistics accumulated by the readout of a model. *)
Local Abbreviation statistics self :=
  (rs_statistics (mod_state (_output self))).

Lemma set_output_same (self : ESN RE RO) : set_output (_output self) self = self.
Proof. destruct self. reflexivity. Qed.

Lemma finalize_empty (self : ESN RE RO) :
  statistics self = [] -> finalize self = (self, Raise ModeError).
Proof.
  intros Hstats. unfold finalize, bind, on_output. simpl in Hstats |- *.
  unfold spec_RRCell_finalize. rewrite Hstats.
  rewrite set_output_same. reflexivity.
Qed.

Lemma reset_statistics (self : ESN RE RO) : statistics (fst (reset self)) = [].
Proof. reflexivity. Qed.

(** Only a forward call with targets can add statistics. *)
Lemma exec_statistics_empty (c : call) (self : ESN RE RO) :
  with_targets c = false ->
  statistics self = [] ->
  statistics (fst (exec c self)) = [].
Proof.
  intros Hc Hstats.
  destruct c as [u [t |] reset_state | | | | sp]; try discriminate Hc;
    unfold exec, bind.
  - unfold forward, bind, on_esn_cell, on_output, gets, subscript_time.
    destruct (ESNCell_call RE u reset_state (_esn_cell self))
      as [c [hs | e]]; simpl; [| exact Hstats].
    destruct (training self); simpl; [exact Hstats |].
    unfold spec_RRCell_call, predict.
    match goal with
    | |- context [if ?flag then _ else _] => destruct flag
    end; simpl; [exact Hstats |].
    match goal with
    | |- context [match ?fitted with Some _ => _ | None => _ end] =>
        destruct fitted
    end; simpl; exact Hstats.
  - reflexivity.
  - rewrite (finalize_empty _ Hstats). exact Hstats.
  - unfold reset_hidden, on_esn_cell.
    destruct (ESNCell_reset_hidden RE (_esn_cell self)) as [c [[] | e]];
      exact Hstats.
  - unfold set_spectral_radius, on_esn_cell.
    destruct (ESNCell_set_spectral_radius RE sp (_esn_cell self))
      as [c [[] | e]]; exact Hstats.
Qed.

Lemma run_statistics_empty (cs : list call) (self : ESN RE RO) :
  forallb (fun c => negb (with_targets c)) cs = true ->
  statistics self = [] ->
  statistics (run cs self) = [].
Proof.
  revert self. induction cs as [| c cs IH]; intros self Hcs Hstats; simpl.
  - exact Hstats.
  - simpl in Hcs. apply andb_true_iff in Hcs. destruct Hcs as [Hc Hcs].
    apply IH; [exact Hcs |].
    apply exec_statistics_empty; [| exact Hstats].
    now apply negb_true_iff.
Qed.

(** C6.  [reset] always returns, and a second [reset] right after the
    first returns the same and leaves the model exactly as the first left
    it: in training mode, with no fitted map and no statistics. *)
Theorem reset_idempotent :
  forall self : ESN RE RO,
    snd (reset self) = Ok tt
    /\ reset (fst (reset self)) = reset self
    /\ training (fst (reset self)) = true
    /\ w_out (fst (reset self)) = None
    /\ statistics (fst (reset self)) = [].
Proof.
  intros self. repeat split.
Qed.

(** C7.  With the readout of the specification, [finalize] on a model
    without statistics raises [ModeError] and changes nothing (no map is
    fitted, the mode stays); this is the case of a model just constructed and
    of a model just reset, also after any calls other than a forward call
    with targets. *)
Theorem finalize_without_statistics :
  (forall self : ESN RE RO,
      statistics self = [] -> finalize self = (self, Raise ModeError))
  /\ (forall (a : ESN_args) (g0 g' : G) (m : ESN RE RO) (cs : list call),
        __init__ RE RO a g0 = (g', Ok m) ->
        forallb (fun c => negb (with_targets c)) cs = true ->
        finalize (run cs m) = (run cs m, Raise ModeError))
  /\ (forall (self : ESN RE RO) (cs : list call),
        forallb (fun c => negb (with_targets c)) cs = true ->
        finalize (run cs (fst (reset self)))
        = (run cs (fst (reset self)), Raise ModeError)).
Proof.
  split; [| split].
  - apply finalize_empty.
  - intros a g0 g' m cs Hinit Hcs.
    apply finalize_empty, run_statistics_empty; [exact Hcs |].
    apply init_inversion in Hinit.
    destruct Hinit as (g1 & g2 & w & w_in & w_bias & c & o
                       & _ & _ & _ & _ & Ho & Hm).
    rewrite Hm. simpl in Ho. inversion Ho. reflexivity.
  - intros self cs Hcs.
    apply finalize_empty, run_statistics_empty; [exact Hcs |].
    apply reset_statistics.
Qed.

End SpecReadoutProperties.

(** ** The theorems on the integer instance *)

Import IntInstance.
#[local] Existing Instance ZSig.

(** The state of the reservoir after the sequence of five timesteps. *)
Lemma reservoir_after_u5 (washout : Z) :
  ESNCell_call ZReservoir u5 true (_esn_cell (fresh washout))
  = (fst (ESNCell_call ZReservoir u5 true (_esn_cell (fresh washout))),
     Ok [[1; 2; 3; 4; 5]]).
Proof. reflexivity. Defined.

Lemma u5_five_timesteps : Forall (fun s : list Z => length s = 5%nat) u5.
Proof. repeat constructor. Defined.

(** Washout 2 on five timesteps, in training mode: the readout receives the
    states 3, 4, 5 and the targets 13, 14, 15. *)
Lemma forward_washout_window_witness :
  forward u5 (Some y5) true (fresh 2)
  = on_output
      (RRCell_call ZReadout [[3; 4; 5]] (Some [[13; 14; 15]]))
      (set_esn_cell
         (fst (ESNCell_call ZReservoir u5 true (_esn_cell (fresh 2))))
         (fresh 2))
  /\ Forall (fun s : list Z => length s = 3%nat) [[3; 4; 5]].
Proof.
  pose proof
    (forward_washout_window ZReservoir ZReadout (fresh 2) u5 (Some y5) true
       _ _ 5 (reservoir_after_u5 2) u5_five_timesteps eq_refl
       (conj (proj1 (Z.leb_le 0 2) eq_refl) (proj1 (Z.ltb_lt 2 5) eq_refl)))
    as [Hforward [Hlengths _]].
  split; [exact Hforward | exact Hlengths].
Defined.

(** A fitted model in inference mode answers the same with and without
    targets. *)
Lemma inference_ignores_targets_witness :
  training (fitted 2) = false
  /\ forward u5 None true (fitted 2) = forward u5 (Some y5) true (fitted 2).
Proof.
  split; [reflexivity |].
  exact (inference_ignores_targets ZReservoir ZReadout (fitted 2) u5
           None (Some y5) true eq_refl).
Defined.

(** The two mismatches of C2 on the instance. *)
Lemma forward_targets_mismatch_witness :
  forward u5 (Some y5) true (fitted 2) = forward u5 None true (fitted 2)
  /\ forward u5 (Some y5) true (fitted 2)
     = on_output
         (RRCell_call ZReadout [[3; 4; 5]] None)
         (set_esn_cell
            (fst (ESNCell_call ZReservoir u5 true (_esn_cell (fitted 2))))
            (fitted 2))
  /\ forward u5 None true (fresh 2)
     = (set_esn_cell
          (fst (ESNCell_call ZReservoir u5 true (_esn_cell (fresh 2))))
          (fresh 2),
        Raise TypeError).
Proof.
  split; [| split].
  - exact (proj1 (proj1 (forward_targets_mismatch ZReservoir ZReadout
                           (fitted 2) u5 true) eq_refl y5)).
  - exact (proj1 (proj2 (proj1 (forward_targets_mismatch ZReservoir ZReadout
                                  (fitted 2) u5 true) eq_refl y5))
             _ [[1; 2; 3; 4; 5]] eq_refl).
  - exact (proj2 (proj2 (forward_targets_mismatch ZReservoir ZReadout
                           (fresh 2) u5 true) eq_refl)
             _ _ (reservoir_after_u5 2)).
Defined.

(** C2 does not hold as stated: a fitted model in inference mode that is
    given targets returns its predictions, and a model in training mode that
    is given no targets raises [TypeError]; neither raises [ModeError]. *)
Lemma forward_targets_mismatch_counterexample :
  (training (fitted 2) = false
   /\ snd (forward u5 (Some y5) true (fitted 2)) = Ok (Some [[63; 64; 65]])
   /\ snd (forward u5 (Some y5) true (fitted 2)) <> Raise ModeError)
  /\ (training (fresh 2) = true
      /\ snd (forward u5 None true (fresh 2)) = Raise TypeError
      /\ snd (forward u5 None true (fresh 2)) <> Raise ModeError).
Proof.
  repeat split; try discriminate.
Qed.

(** Washout 5 on five timesteps, in training mode: the readout receives a
    sequence without timesteps, and targets without timesteps. *)
Lemma forward_washout_beyond_sequence_witness :
  forward u5 (Some y5) true (fresh 5)
  = on_output
      (RRCell_call ZReadout [[]] (Some [[]]))
      (set_esn_cell
         (fst (ESNCell_call ZReservoir u5 true (_esn_cell (fresh 5))))
         (fresh 5)).
Proof.
  exact (proj1 (forward_washout_beyond_sequence ZReservoir ZReadout (fresh 5)
                  u5 (Some y5) true _ _ 5 (reservoir_after_u5 5)
                  u5_five_timesteps eq_refl (proj1 (Z.leb_le 5 5) eq_refl))).
Defined.

(** C3 does not hold as stated: with washout 5 and five timesteps a training
    call returns [None] after accumulating nothing, and an inference call
    returns a prediction without timesteps; neither raises
    [ConfigurationError]. *)
Lemma forward_washout_beyond_sequence_counterexample :
  (_washout (fresh 5) = 5
   /\ Forall (fun s : list Z => length s = 5%nat) u5
   /\ training (fresh 5) = true
   /\ snd (forward u5 (Some y5) true (fresh 5)) = Ok None
   /\ snd (forward u5 (Some y5) true (fresh 5)) <> Raise ConfigurationError)
  /\ (_washout (fitted 5) = 5
      /\ training (fitted 5) = false
      /\ snd (forward u5 None true (fitted 5)) = Ok (Some [[]])
      /\ snd (forward u5 None true (fitted 5)) <> Raise ConfigurationError).
Proof.
  repeat split; try discriminate. apply u5_five_timesteps.
Qed.

(** Three literal matrices: they come back as they are and the counter of
    the generators is not advanced. *)
Lemma generate_matrices_dispatch_witness :
  _generate_matrices 1 1 (literal 0) (literal 1) (literal 0) 7
  = (7, Ok (0, 1, 0)).
Proof.
  exact (proj1 (proj2 (generate_matrices_dispatch ZReservoir ZReadout 1 1
                         (literal 0) (literal 1) (literal 0))
                  eq_refl eq_refl eq_refl eq_refl eq_refl eq_refl) 7).
Defined.

(** [finalize] on the trained model: the readout solves, then the model and
    the readout are in inference mode. *)
Lemma training_mode_two_state_machine_witness :
  (exists o,
      RRCell_finalize ZReadout (_output (trained 2)) = (o, Ok tt)
      /\ _output (fitted 2) = mod_train false o
      /\ training (fitted 2) = false)
  /\ (snd (finalize (trained 2)) = Ok tt
      /\ training (fst (finalize (trained 2))) = false
      /\ _output (fst (finalize (trained 2)))
         = mod_train false
             (fst (RRCell_finalize ZReadout (_output (trained 2)))))
  /\ (snd (reset (fitted 2)) = Ok tt
      /\ training (fst (reset (fitted 2))) = true
      /\ _output (fst (reset (fitted 2)))
         = mod_train true (fst (RRCell_reset ZReadout (_output (fitted 2)))))
  /\ (snd (finalize (fresh 2)) = Raise ModeError
      /\ training (fst (finalize (fresh 2))) = training (fresh 2)).
Proof.
  pose proof (training_mode_two_state_machine ZReservoir ZReadout)
    as [_ [Hfinalized [_ [_ [Hfinalize [Hreset [Hfinalize_raises _]]]]]]].
  split; [| split; [| split]].
  - exact (Hfinalized (trained 2) (fitted 2) eq_refl).
  - exact (Hfinalize (trained 2) _ eq_refl).
  - exact (Hreset (fitted 2) _ eq_refl).
  - exact (Hfinalize_raises (fresh 2) _ ModeError eq_refl).
Defined.

(** [finalize] on the model just constructed, also after a [reset_hidden]
    and a forward call without targets. *)
Lemma finalize_without_statistics_witness :
  finalize (fresh 2) = (fresh 2, Raise ModeError)
  /\ finalize (run [ResetHidden; Forward u5 None true] (fresh 2))
     = (run [ResetHidden; Forward u5 None true] (fresh 2), Raise ModeError).
Proof.
  split.
  - exact (proj1 (finalize_without_statistics ZReservoir Z Z zsolve zapply)
             (fresh 2) eq_refl).
  - exact (proj1 (proj2 (finalize_without_statistics ZReservoir Z Z zsolve
                           zapply))
             (zargs (literal 0) (literal 1) (literal 0) 2) 0 0 (fresh 2)
             [ResetHidden; Forward u5 None true] eq_refl eq_refl).
Defined.

(** The reservoir of the instance keeps its matrices through its own
    operations. *)
Lemma ZReservoir_call_keeps u reset_state (c : nnModule (Cell ZReservoir)) :
  matrices_of (mod_state (fst (ESNCell_call ZReservoir u reset_state c)))
  = matrices_of (mod_state c).
Proof.
  simpl. unfold spec_ESNCell_call.
  destruct (run_batch _ _ _ u). reflexivity.
Defined.

(** Three generators sharing a counter started at 7: the construction
    returns, the internal matrix is 7, the input matrix 8, the bias 9, the
    calls do the same with other generators retained, and the matrices stay
    through a training call, [finalize], a new spectral radius and an
    inference call. *)
Lemma matrices_resolved_once_in_order_witness :
  __init__ ZReservoir ZReadout (zargs counting counting counting 2) 7
  = (10, Ok counted)
  /\ (exists (g1 g2 : Z) (mw mw_in mw_bias : Z),
        resolve counting (Shape2 1 1) 7 = (g1, Ok mw)
        /\ resolve counting (Shape2 1 1) g1 = (g2, Ok mw_in)
        /\ resolve counting (Shape1 1) g2 = (10, Ok mw_bias)
        /\ ESNCell_init ZReservoir
             (ESNCell_kwargs (zargs counting counting counting 2)
                mw mw_in mw_bias)
           = Ok (mod_state (_esn_cell counted)))
  /\ run [Forward u5 (Some y5) true; Finalize]
       (set_generators (literal 0) (literal 1) failing counted)
     = set_generators (literal 0) (literal 1) failing
         (run [Forward u5 (Some y5) true; Finalize] counted)
  /\ matrices_of
       (mod_state
          (_esn_cell
             (run [Forward u5 (Some y5) true; Finalize; SetSpectralRadius 3;
                   Forward u5 None false] counted)))
     = (7, 8, 9)
  /\ (exists m : ESN ZReservoir ZReadout,
        __init__ ZReservoir ZReadout (zargs counting counting counting 2) 7
        = (10, Ok m)
        /\ w (run [Forward u5 (Some y5) true; Finalize; SetSpectralRadius 3;
                   Forward u5 None false] m) = 7
        /\ w_in (run [Forward u5 (Some y5) true; Finalize;
                      SetSpectralRadius 3; Forward u5 None false] m) = 8
        /\ cell_w_bias
             (cs_args
                (mod_state
                   (_esn_cell
                      (run [Forward u5 (Some y5) true; Finalize;
                            SetSpectralRadius 3; Forward u5 None false] m))))
           = 9).
Proof.
  pose proof (matrices_resolved_once_in_order ZReservoir ZReadout)
    as [_ [Hreturns [Hreturned [_ [Hretained [Hkept Hspec]]]]]].
  split; [| split; [| split; [| split]]].
  - exact (Hreturns (zargs counting counting counting 2) 7 8 9 10 7 8 9
             (mod_state (_esn_cell counted)) (mod_state (_output counted))
             eq_refl eq_refl eq_refl eq_refl eq_refl).
  - exact (Hreturned (zargs counting counting counting 2) 7 10 counted
             eq_refl).
  - exact (proj2 (Hretained (literal 0) (literal 1) failing counted)
             [Forward u5 (Some y5) true; Finalize]).
  - exact (Hkept (Z * Z * Z)%type matrices_of ZReservoir_call_keeps
             (fun c => eq_refl) (fun sp c => eq_refl)
             [Forward u5 (Some y5) true; Finalize; SetSpectralRadius 3;
              Forward u5 None false] counted).
  - exact (Hspec 0 zstep (zargs counting counting counting 2) 7 8 9 10 7 8 9
             (mod_state (_output counted))
             [Forward u5 (Some y5) true; Finalize; SetSpectralRadius 3;
              Forward u5 None false]
             eq_refl eq_refl eq_refl eq_refl).
Defined.

(** * Further properties of the orchestrator *)

(** ** Slices are suffixes *)

Lemma slice_from_suffix {A : Type} (start : Z) (l : list A) :
  l = firstn (slice_start start (length l)) l ++ slice_from start l.
Proof. unfold slice_from. symmetry. apply firstn_skipn. Qed.

Lemma slice_time_suffixes {A : Type} (start : Z) (t : batch A) :
  Forall2 (fun s s' => exists prefix, s = prefix ++ s') t (slice_time start t).
Proof.
  induction t as [| s t IH]; simpl; constructor.
  - exists (firstn (slice_start start (length s)) s).
    apply slice_from_suffix.
  - exact IH.
Qed.

Lemma slice_time_zero {A : Type} (t : batch A) : slice_time 0 t = t.
Proof.
  rewrite slice_time_skipn by lia. simpl.
  induction t as [| s t IH]; simpl; [reflexivity |].
  now rewrite IH.
Qed.

Lemma slice_time_negative {A : Type} {start : Z} {L : nat} {t : batch A} :
  start < 0 ->
  Forall (fun s => length s = L) t ->
  slice_time start t = map (skipn (L - Z.to_nat (- start))) t.
Proof.
  intros Hneg Ht. unfold slice_time. apply map_ext_Forall.
  apply Forall_impl with (2 := Ht). intros s Hs.
  rewrite slice_from_negative by assumption. now rewrite Hs.
Qed.

(** ** Computations that keep an observation of the state *)

Lemma bind_keeps {S A B X : Type} (f : S -> X) (m : M S A) (k : A -> M S B) :
  (forall s, f (fst (m s)) = f s) ->
  (forall a s, f (fst (k a s)) = f s) ->
  forall s, f (fst (bind m k s)) = f s.
Proof.
  intros Hm Hk s. unfold bind. specialize (Hm s).
  destruct (m s) as [s' [a | e]]; simpl in *.
  - now rewrite Hk.
  - exact Hm.
Qed.

Section ForwardEffects.

Context {Sg : Signature}.
Variable RE : ReservoirEngine Sg.
Variable RO : ReadoutTrainer Sg.

(** The outcome of [forward] once the reservoir engine has returned. *)
Lemma forward_after_reservoir {self : ESN RE RO} {u} y {reset_state c
    hidden_states} :
  ESNCell_call RE u reset_state (_esn_cell self) = (c, Ok hidden_states) ->
  forward u y reset_state self =
  (if negb (training self) then
     on_output
       (RRCell_call RO (slice_time (_washout self) hidden_states) None)
       (set_esn_cell c self)
   else
     match y with
     | Some t =>
         on_output
           (RRCell_call RO (slice_time (_washout self) hidden_states)
              (Some (slice_time (_washout self) t)))
           (set_esn_cell c self)
     | None => (set_esn_cell c self, Raise TypeError)
     end).
Proof.
  intros Hcell. destruct (training self) eqn:Hmode; simpl.
  - destruct y as [t |].
    + exact (forward_training RE RO t Hcell Hmode).
    + exact (forward_training_no_targets RE RO Hcell Hmode).
  - exact (forward_inference RE RO y Hcell Hmode).
Qed.

Lemma on_output_esn_cell {A : Type} (f : M (nnModule (Readout RO)) A)
    (self : ESN RE RO) :
  _esn_cell (fst (on_output f self)) = _esn_cell self.
Proof. unfold on_output. destruct (f (_output self)). reflexivity. Qed.

(** X1.  Whatever the mode, the targets and the outcome (a value, an
    exception of the readout, the [TypeError] of missing targets, an
    exception of the reservoir), the reservoir sub-module after [forward] is
    the one its own call left: the recurrent state is advanced and is not
    restored when the call fails later. *)
Theorem forward_advances_reservoir :
  forall (self : ESN RE RO) (u : batch UVec) (y : option (batch YVec))
         (reset_state : bool),
    _esn_cell (fst (forward u y reset_state self))
    = fst (ESNCell_call RE u reset_state (_esn_cell self))
    /\ hidden (fst (forward u y reset_state self))
       = ESNCell_hidden RE
           (mod_state (fst (ESNCell_call RE u reset_state (_esn_cell self)))).
Proof.
  intros self u y reset_state.
  assert (Hcell : _esn_cell (fst (forward u y reset_state self))
                  = fst (ESNCell_call RE u reset_state (_esn_cell self))).
  { destruct (ESNCell_call RE u reset_state (_esn_cell self))
      as [c [hs | e]] eqn:Hcell.
    - rewrite (forward_after_reservoir y Hcell).
      destruct (negb (training self)).
      + now rewrite on_output_esn_cell.
      + destruct y as [t |]; [now rewrite on_output_esn_cell | reflexivity].
    - rewrite (forward_reservoir_raises RE RO y Hcell). reflexivity. }
  split; [exact Hcell |]. unfold hidden. now rewrite Hcell.
Qed.

(** X2.  [forward] raises nothing but the exception of the reservoir
    engine, the [TypeError] of a training call without targets, or the
    exception of the readout called on the sliced states (with the sliced
    targets in training mode, with none in inference mode). *)
Theorem forward_exception_sources :
  forall (self : ESN RE RO) (u : batch UVec) (y : option (batch YVec))
         (reset_state : bool) (e : exn),
    snd (forward u y reset_state self) = Raise e ->
    snd (ESNCell_call RE u reset_state (_esn_cell self)) = Raise e
    \/ (training self = true /\ y = None /\ e = TypeError
        /\ is_ok (snd (ESNCell_call RE u reset_state (_esn_cell self))) = true)
    \/ (exists hidden_states,
          snd (ESNCell_call RE u reset_state (_esn_cell self))
          = Ok hidden_states
          /\ snd (RRCell_call RO
                    (slice_time (_washout self) hidden_states)
                    (if training self
                     then option_map (slice_time (_washout self)) y
                     else None)
                    (_output self))
             = Raise e).
Proof.
  intros self u y reset_state e.
  destruct (ESNCell_call RE u reset_state (_esn_cell self))
    as [c [hs | e']] eqn:Hcell.
  - rewrite (forward_after_reservoir y Hcell).
    destruct (training self) eqn:Hmode; simpl.
    + destruct y as [t |]; simpl.
      * unfold on_output; simpl. intros Hraise.
        right; right. exists hs. split; [reflexivity |].
        destruct (RRCell_call RO _ _ (_output self)). exact Hraise.
      * intros Hraise. inversion Hraise. right; left. repeat split.
    + unfold on_output; simpl. intros Hraise.
      right; right. exists hs. split; [reflexivity |].
      destruct (RRCell_call RO _ _ (_output self)). exact Hraise.
  - rewrite (forward_reservoir_raises RE RO y Hcell). simpl.
    intros Hraise. left. inversion Hraise. reflexivity.
Qed.

(** X3.  When the reservoir engine raises, [forward] raises the same
    exception, the readout is not called (its sub-module is what it was) and
    the targets are not looked at: the outcome is the same for every [y], a
    missing one in training mode included. *)
Theorem forward_reservoir_failure :
  forall (self : ESN RE RO) (u : batch UVec) (reset_state : bool)
         (c : nnModule (Cell RE)) (e : exn),
    ESNCell_call RE u reset_state (_esn_cell self) = (c, Raise e) ->
    forall y : option (batch YVec),
      snd (forward u y reset_state self) = Raise e
      /\ _output (fst (forward u y reset_state self)) = _output self
      /\ training (fst (forward u y reset_state self)) = training self
      /\ forward u y reset_state self = forward u None reset_state self.
Proof.
  intros self u reset_state c e Hcell y.
  rewrite (forward_reservoir_raises RE RO y Hcell).
  rewrite (forward_reservoir_raises RE RO None Hcell).
  repeat split.
Qed.

(** X4.  Whatever the washout (negative or larger than the sequences
    included), what the readout receives is, sequence by sequence and in
    the order of the batch, a suffix of what the reservoir produced: states
    are dropped from the front only, none is changed, reordered or
    repeated; the same holds for the targets of a training call. *)
Theorem forward_passes_suffixes :
  forall (self : ESN RE RO) (u : batch UVec) (y : option (batch YVec))
         (reset_state : bool) (c : nnModule (Cell RE))
         (hidden_states : batch HVec),
    ESNCell_call RE u reset_state (_esn_cell self) = (c, Ok hidden_states) ->
    exists seen : batch HVec,
      Forall2 (fun s s' => exists prefix, s = prefix ++ s') hidden_states seen
      /\ (training self = false ->
          forward u y reset_state self
          = on_output (RRCell_call RO seen None) (set_esn_cell c self))
      /\ (training self = true ->
          forall t : batch YVec,
            y = Some t ->
            exists targets : batch YVec,
              Forall2 (fun s s' => exists prefix, s = prefix ++ s') t targets
              /\ forward u y reset_state self
                 = on_output (RRCell_call RO seen (Some targets))
                     (set_esn_cell c self)).
Proof.
  intros self u y reset_state c hidden_states Hcell.
  exists (slice_time (_washout self) hidden_states).
  split; [apply slice_time_suffixes |]. split.
  - intros Hmode. exact (forward_inference RE RO y Hcell Hmode).
  - intros Hmode t Hy. subst y.
    exists (slice_time (_washout self) t).
    split; [apply slice_time_suffixes |].
    exact (forward_training RE RO t Hcell Hmode).
Qed.

(** X5.  A negative washout is accepted and is not a washout: on sequences
    of [L] timesteps the readout receives the last [- washout] states of each
    sequence (all [L] when [- washout] exceeds [L]), that is, the beginning
    of the sequence is dropped up to timestep [L + washout]. *)
Theorem forward_negative_washout :
  forall (self : ESN RE RO) (u : batch UVec) (y : option (batch YVec))
         (reset_state : bool) (c : nnModule (Cell RE))
         (hidden_states : batch HVec) (L : nat),
    ESNCell_call RE u reset_state (_esn_cell self) = (c, Ok hidden_states) ->
    Forall (fun s => length s = L) u ->
    map (@length HVec) hidden_states = map (@length UVec) u ->
    _washout self < 0 ->
    let kept := Z.to_nat (- _washout self) in
    let seen := map (skipn (L - kept)) hidden_states in
    forward u y reset_state self =
      (if negb (training self) then
         on_output (RRCell_call RO seen None) (set_esn_cell c self)
       else
         match y with
         | Some t =>
             on_output
               (RRCell_call RO seen (Some (slice_time (_washout self) t)))
               (set_esn_cell c self)
         | None => (set_esn_cell c self, Raise TypeError)
         end)
    /\ Forall (fun s => length s = Nat.min L kept) seen
    /\ (forall t : batch YVec,
          Forall (fun s => length s = L) t ->
          slice_time (_washout self) t = map (skipn (L - kept)) t).
Proof.
  intros self u y reset_state c hidden_states L Hcell Hu Hshape HW kept seen.
  assert (Hhs : Forall (fun s => length s = L) hidden_states)
    by exact (same_time_lengths Hu Hshape).
  assert (Hseen : slice_time (_washout self) hidden_states = seen)
    by exact (slice_time_negative HW Hhs).
  split; [| split].
  - rewrite (forward_after_reservoir y Hcell), Hseen. reflexivity.
  - unfold seen. apply Forall_map.
    apply Forall_impl with (2 := Hhs).
    intros s Hs. rewrite length_skipn, Hs. lia.
  - intros t Ht. exact (slice_time_negative HW Ht).
Qed.

(** X6.  With washout 0, the default, nothing is cut: the readout receives
    the whole trajectory of the reservoir and, in training mode, the targets
    as they were passed, whatever the lengths of the sequences. *)
Theorem forward_zero_washout :
  forall (self : ESN RE RO) (u : batch UVec) (y : option (batch YVec))
         (reset_state : bool) (c : nnModule (Cell RE))
         (hidden_states : batch HVec),
    ESNCell_call RE u reset_state (_esn_cell self) = (c, Ok hidden_states) ->
    _washout self = 0 ->
    forward u y reset_state self =
      (if negb (training self) then
         on_output (RRCell_call RO hidden_states None) (set_esn_cell c self)
       else
         match y with
         | Some t =>
             on_output (RRCell_call RO hidden_states (Some t))
               (set_esn_cell c self)
         | None => (set_esn_cell c self, Raise TypeError)
         end).
Proof.
  intros self u y reset_state c hidden_states Hcell HW.
  rewrite (forward_after_reservoir y Hcell), HW.
  rewrite slice_time_zero.
  destruct y as [t |]; [rewrite slice_time_zero |]; reflexivity.
Qed.

End ForwardEffects.

(** ** Life cycle and configuration *)

Section LifeCycleEffects.

Context {Sg : Signature}.
Variable RE : ReservoirEngine Sg.
Variable RO : ReadoutTrainer Sg.

(** An observation of the model that depends neither on the two
    sub-modules nor on the training flag is kept by every call. *)
Section Keeps.

Variable X : Type.
Variable f : ESN RE RO -> X.
Hypothesis f_esn_cell : forall c s, f (set_esn_cell c s) = f s.
Hypothesis f_output : forall o s, f (set_output o s) = f s.
Hypothesis f_training : forall mode s, f (set_training mode s) = f s.

Lemma on_esn_cell_keeps {A : Type} (g : M (nnModule (Cell RE)) A) :
  forall s, f (fst (on_esn_cell g s)) = f s.
Proof.
  intros s. unfold on_esn_cell.
  destruct (g (_esn_cell s)). apply f_esn_cell.
Qed.

Lemma on_output_keeps {A : Type} (g : M (nnModule (Readout RO)) A) :
  forall s, f (fst (on_output g s)) = f s.
Proof.
  intros s. unfold on_output.
  destruct (g (_output s)). apply f_output.
Qed.

Lemma train_keeps (mode : bool) : forall s, f (fst (train mode s)) = f s.
Proof.
  intros s. unfold train, modify. simpl.
  now rewrite f_output, f_esn_cell, f_training.
Qed.

Lemma forward_keeps u y reset_state :
  forall s, f (fst (forward u y reset_state s)) = f s.
Proof.
  unfold forward.
  apply bind_keeps; [apply on_esn_cell_keeps | intros hs].
  apply bind_keeps; [reflexivity | intros mode].
  apply bind_keeps; [reflexivity | intros washout].
  destruct (negb mode); [apply on_output_keeps |].
  apply bind_keeps; [| intros targets; apply on_output_keeps].
  destruct y; reflexivity.
Qed.

Lemma exec_keeps (c : call) : forall s, f (fst (exec c s)) = f s.
Proof.
  destruct c as [u y reset_state | | | | sp]; unfold exec;
    (apply bind_keeps; [| reflexivity]).
  - apply forward_keeps.
  - unfold reset. apply bind_keeps;
      [apply on_output_keeps | intros _; apply train_keeps].
  - unfold finalize. apply bind_keeps;
      [apply on_output_keeps | intros _; apply train_keeps].
  - apply on_esn_cell_keeps.
  - apply on_esn_cell_keeps.
Qed.

Lemma run_keeps (cs : list call) : forall s, f (run cs s) = f s.
Proof.
  induction cs as [| c cs IH]; intros s; simpl.
  - reflexivity.
  - now rewrite IH, exec_keeps.
Qed.

End Keeps.

(** X7.  No sequence of calls ([forward], [reset], [finalize],
    [reset_hidden], a new spectral radius), failed calls included, changes
    the configuration the constructor stored: the washout, the dimensions,
    the bias flag, the dtype and the three generator values. *)
Theorem configuration_is_fixed :
  forall (cs : list call) (self : ESN RE RO),
    _washout (run cs self) = _washout self
    /\ _input_dim (run cs self) = _input_dim self
    /\ _output_dim (run cs self) = _output_dim self
    /\ _hidden_dim (run cs self) = _hidden_dim self
    /\ _with_bias (run cs self) = _with_bias self
    /\ _dtype (run cs self) = _dtype self
    /\ _w_generator (run cs self) = _w_generator self
    /\ _win_generator (run cs self) = _win_generator self
    /\ _wbias_generator (run cs self) = _wbias_generator self.
Proof.
  intros cs self.
  repeat split; apply run_keeps; reflexivity.
Qed.

(** X8.  Assigning [spectral_radius] acts on the reservoir engine only: the
    readout sub-module, the fitted matrix it shows and the training flag are
    what they were; the reservoir is in the state its own setter left, and
    the assignment raises exactly when that setter raises. *)
Theorem set_spectral_radius_frame :
  forall (sp : Scalar) (self : ESN RE RO),
    _output (fst (set_spectral_radius sp self)) = _output self
    /\ w_out (fst (set_spectral_radius sp self)) = w_out self
    /\ training (fst (set_spectral_radius sp self)) = training self
    /\ _esn_cell (fst (set_spectral_radius sp self))
       = fst (ESNCell_set_spectral_radius RE sp (_esn_cell self))
    /\ spectral_radius (fst (set_spectral_radius sp self))
       = ESNCell_spectral_radius RE
           (mod_state
              (fst (ESNCell_set_spectral_radius RE sp (_esn_cell self))))
    /\ snd (set_spectral_radius sp self)
       = snd (ESNCell_set_spectral_radius RE sp (_esn_cell self)).
Proof.
  intros sp self.
  unfold set_spectral_radius, on_esn_cell, w_out, spectral_radius.
  destruct (ESNCell_set_spectral_radius RE sp (_esn_cell self)) as [c r].
  simpl. repeat split.
Qed.

Lemma reset_esn_cell_state (self : ESN RE RO) :
  mod_state (_esn_cell (fst (reset self))) = mod_state (_esn_cell self).
Proof.
  unfold reset, bind, on_output.
  destruct (RRCell_reset RO (_output self)) as [o [[] | e]]; reflexivity.
Qed.

Lemma finalize_esn_cell_state (self : ESN RE RO) :
  mod_state (_esn_cell (fst (finalize self))) = mod_state (_esn_cell self).
Proof.
  unfold finalize, bind, on_output.
  destruct (RRCell_finalize RO (_output self)) as [o [[] | e]]; reflexivity.
Qed.

(** X9.  [reset] and [finalize], whether they return or raise, leave the
    state of the reservoir engine alone: the recurrent state, the two
    matrices and the spectral radius read through the properties are the
    same after the call. *)
Theorem lifecycle_keeps_reservoir :
  forall self : ESN RE RO,
    (hidden (fst (reset self)) = hidden self
     /\ w (fst (reset self)) = w self
     /\ w_in (fst (reset self)) = w_in self
     /\ spectral_radius (fst (reset self)) = spectral_radius self)
    /\ (hidden (fst (finalize self)) = hidden self
        /\ w (fst (finalize self)) = w self
        /\ w_in (fst (finalize self)) = w_in self
        /\ spectral_radius (fst (finalize self)) = spectral_radius self).
Proof.
  intros self. unfold hidden, w, w_in, spectral_radius.
  rewrite reset_esn_cell_state, finalize_esn_cell_state.
  repeat split.
Qed.

(** X10.  [finalize] and [reset] return exactly when the corresponding
    operation of the readout returns, and raise its exception otherwise; when
    it raises, the mode is not switched anywhere: the model is as before the
    call, except for the readout sub-module, which is as its failed
    operation left it. *)
Theorem lifecycle_outcome :
  forall self : ESN RE RO,
    snd (finalize self) = snd (RRCell_finalize RO (_output self))
    /\ snd (reset self) = snd (RRCell_reset RO (_output self))
    /\ (is_ok (snd (RRCell_finalize RO (_output self))) = false ->
        fst (finalize self)
        = set_output (fst (RRCell_finalize RO (_output self))) self)
    /\ (is_ok (snd (RRCell_reset RO (_output self))) = false ->
        fst (reset self)
        = set_output (fst (RRCell_reset RO (_output self))) self).
Proof.
  intros self. unfold finalize, reset, bind, on_output.
  destruct (RRCell_finalize RO (_output self)) as [o1 [[] | e1]];
    destruct (RRCell_reset RO (_output self)) as [o2 [[] | e2]];
    simpl; repeat split; intros; try discriminate; reflexivity.
Qed.

End LifeCycleEffects.

(** ** Construction, outcome by outcome *)

Section ConstructionOutcomes.

Context {Sg : Signature}.
Variable RE : ReservoirEngine Sg.
Variable RO : ReadoutTrainer Sg.

(** X11.  A construction stops at the first failure and raises its
    exception: a value of a later slot is not invoked after a generator
    raised, so the state of the generators is the one the failing generator
    left; when a constructor of an engine raises, the three slots have been
    resolved and the state of the generators stays advanced. *)
Theorem init_stops_at_first_failure :
  forall (a : ESN_args) (g0 : G) (e : exn),
    let size_w := Shape2 (arg_hidden_dim a) (arg_hidden_dim a) in
    let size_w_in := Shape2 (arg_hidden_dim a) (arg_input_dim a) in
    let size_w_bias := Shape1 (arg_hidden_dim a) in
    (forall g1,
        resolve (arg_w_generator a) size_w g0 = (g1, Raise e) ->
        __init__ RE RO a g0 = (g1, Raise e))
    /\ (forall g1 g2 w,
          resolve (arg_w_generator a) size_w g0 = (g1, Ok w) ->
          resolve (arg_win_generator a) size_w_in g1 = (g2, Raise e) ->
          __init__ RE RO a g0 = (g2, Raise e))
    /\ (forall g1 g2 g3 w w_in,
          resolve (arg_w_generator a) size_w g0 = (g1, Ok w) ->
          resolve (arg_win_generator a) size_w_in g1 = (g2, Ok w_in) ->
          resolve (arg_wbias_generator a) size_w_bias g2 = (g3, Raise e) ->
          __init__ RE RO a g0 = (g3, Raise e))
    /\ (forall g1 g2 g3 w w_in w_bias,
          resolve (arg_w_generator a) size_w g0 = (g1, Ok w) ->
          resolve (arg_win_generator a) size_w_in g1 = (g2, Ok w_in) ->
          resolve (arg_wbias_generator a) size_w_bias g2 = (g3, Ok w_bias) ->
          (ESNCell_init RE (ESNCell_kwargs a w w_in w_bias) = Raise e ->
           __init__ RE RO a g0 = (g3, Raise e))
          /\ (is_ok (ESNCell_init RE (ESNCell_kwargs a w w_in w_bias)) = true ->
              RRCell_init RO (RRCell_kwargs a) = Raise e ->
              __init__ RE RO a g0 = (g3, Raise e))).
Proof.
  intros a g0 e size_w size_w_in size_w_bias.
  unfold __init__. rewrite generate_matrices_resolve.
  unfold bind, construct, ret. fold size_w size_w_in size_w_bias.
  split; [| split; [| split]].
  - intros g1 Hw. now rewrite Hw.
  - intros g1 g2 mw Hw Hin. now rewrite Hw, Hin.
  - intros g1 g2 g3 mw mw_in Hw Hin Hb. now rewrite Hw, Hin, Hb.
  - intros g1 g2 g3 mw mw_in mw_bias Hw Hin Hb. rewrite Hw, Hin, Hb. split.
    + intros Hcell. now rewrite Hcell.
    + intros Hcell Hreadout.
      destruct (ESNCell_init RE (ESNCell_kwargs a mw mw_in mw_bias));
        [| discriminate].
      now rewrite Hreadout.
Qed.

(** X12.  A construction that returns gives a model in training mode, both
    sub-modules in training mode too, that stores the arguments it was
    given; the reservoir engine was built with the hidden dimension as its
    output dimension, the readout with the hidden dimension as its input
    dimension, and both with the same dtype. *)
Theorem init_wiring :
  forall (a : ESN_args) (g0 g' : G) (m : ESN RE RO),
    __init__ RE RO a g0 = (g', Ok m) ->
    (training m = true
     /\ mod_training (_esn_cell m) = true
     /\ mod_training (_output m) = true)
    /\ (_washout m = arg_washout a
        /\ _input_dim m = arg_input_dim a
        /\ _hidden_dim m = arg_hidden_dim a
        /\ _output_dim m = arg_output_dim a
        /\ _with_bias m = arg_with_bias a
        /\ _dtype m = arg_dtype a
        /\ _w_generator m = arg_w_generator a
        /\ _win_generator m = arg_win_generator a
        /\ _wbias_generator m = arg_wbias_generator a)
    /\ exists (cell_kwargs : ESNCell_args) (readout_kwargs : RRCell_args),
        ESNCell_init RE cell_kwargs = Ok (mod_state (_esn_cell m))
        /\ RRCell_init RO readout_kwargs = Ok (mod_state (_output m))
        /\ cell_input_dim cell_kwargs = _input_dim m
        /\ cell_output_dim cell_kwargs = _hidden_dim m
        /\ rr_input_dim readout_kwargs = _hidden_dim m
        /\ rr_output_dim readout_kwargs = _output_dim m
        /\ rr_with_bias readout_kwargs = _with_bias m
        /\ cell_dtype cell_kwargs = _dtype m
        /\ rr_dtype readout_kwargs = _dtype m.
Proof.
  intros a g0 g' m Hinit. apply init_inversion in Hinit.
  destruct Hinit as (g1 & g2 & w & w_in & w_bias & c & o
                     & _ & _ & _ & Hc & Ho & Hm).
  subst m. split; [repeat split |]. split; [repeat split |].
  exists (ESNCell_kwargs a w w_in w_bias), (RRCell_kwargs a).
  repeat split; assumption.
Qed.

End ConstructionOutcomes.

(** ** Where a returned value comes from *)

Section ForwardValues.

Context {Sg : Signature}.
Variable RE : ReservoirEngine Sg.
Variable RO : ReadoutTrainer Sg.

(** X13.  [forward] returns a value only when the reservoir engine returned
    and the readout, called on the sliced states (with the sliced targets in
    training mode, which must then be present, and with none in inference
    mode), returned that very value; the readout sub-module is then the one
    that call left. *)
Theorem forward_value_source :
  forall (self : ESN RE RO) (u : batch UVec) (y : option (batch YVec))
         (reset_state : bool) (o : Out RO),
    snd (forward u y reset_state self) = Ok o ->
    exists hidden_states : batch HVec,
      snd (ESNCell_call RE u reset_state (_esn_cell self)) = Ok hidden_states
      /\ (training self = true -> y <> None)
      /\ snd (RRCell_call RO
                (slice_time (_washout self) hidden_states)
                (if training self
                 then option_map (slice_time (_washout self)) y
                 else None)
                (_output self))
         = Ok o
      /\ _output (fst (forward u y reset_state self))
         = fst (RRCell_call RO
                  (slice_time (_washout self) hidden_states)
                  (if training self
                   then option_map (slice_time (_washout self)) y
                   else None)
                  (_output self)).
Proof.
  intros self u y reset_state o.
  destruct (ESNCell_call RE u reset_state (_esn_cell self))
    as [c [hs | e]] eqn:Hcell.
  - rewrite (forward_after_reservoir RE RO y Hcell).
    exists hs. split; [reflexivity |].
    destruct (training self) eqn:Hmode; simpl in *.
    + destruct y as [t |]; simpl in *; [| discriminate].
      unfold on_output in *; simpl in *.
      destruct (RRCell_call RO _ _ (_output self)) as [o' r].
      simpl in *. repeat split; [discriminate | assumption].
    + unfold on_output in *; simpl in *.
      destruct (RRCell_call RO _ _ (_output self)) as [o' r].
      simpl in *. repeat split; [discriminate | assumption].
  - rewrite (forward_reservoir_raises RE RO y Hcell). discriminate.
Qed.

End ForwardValues.

(** ** The further properties on the integer instance *)

Lemma strict_reservoir_raises :
  ESNCell_call StrictReservoir [] true (_esn_cell (strict_fresh 2))
  = (_esn_cell (strict_fresh 2), Raise RuntimeError).
Proof. reflexivity. Defined.

(** A training call without targets: the exception is the [TypeError]. *)
Lemma forward_exception_sources_witness :
  snd (ESNCell_call ZReservoir u5 true (_esn_cell (fresh 2)))
  = Raise TypeError
  \/ (training (fresh 2) = true
      /\ @None (batch Z) = None
      /\ TypeError = TypeError
      /\ is_ok (snd (ESNCell_call ZReservoir u5 true (_esn_cell (fresh 2))))
         = true)
  \/ (exists hidden_states : batch Z,
        snd (ESNCell_call ZReservoir u5 true (_esn_cell (fresh 2)))
        = Ok hidden_states
        /\ snd (RRCell_call ZReadout
                  (slice_time (_washout (fresh 2)) hidden_states)
                  (if training (fresh 2)
                   then option_map (slice_time (_washout (fresh 2))) None
                   else None)
                  (_output (fresh 2)))
           = Raise TypeError).
Proof.
  exact (forward_exception_sources ZReservoir ZReadout (fresh 2) u5 None true
           TypeError eq_refl).
Defined.

(** The strict reservoir on an empty batch: its exception comes out, with
    or without targets, and the readout is as it was. *)
Lemma forward_reservoir_failure_witness :
  snd (forward [] (Some y5) true (strict_fresh 2)) = Raise RuntimeError
  /\ _output (fst (forward [] (Some y5) true (strict_fresh 2)))
     = _output (strict_fresh 2)
  /\ training (fst (forward [] (Some y5) true (strict_fresh 2)))
     = training (strict_fresh 2)
  /\ forward [] (Some y5) true (strict_fresh 2)
     = forward [] None true (strict_fresh 2).
Proof.
  exact (forward_reservoir_failure StrictReservoir ZReadout (strict_fresh 2)
           [] true _ RuntimeError strict_reservoir_raises (Some y5)).
Defined.

(** Washout 2 in inference mode: what the readout receives is a suffix of
    the five states. *)
Lemma forward_passes_suffixes_witness :
  exists seen : batch Z,
    Forall2 (fun s s' => exists prefix, s = prefix ++ s')
      [[1; 2; 3; 4; 5]] seen
    /\ forward u5 None true (fitted 2)
       = on_output (RRCell_call ZReadout seen None)
           (set_esn_cell
              (fst (ESNCell_call ZReservoir u5 true (_esn_cell (fitted 2))))
              (fitted 2)).
Proof.
  destruct (forward_passes_suffixes ZReservoir ZReadout (fitted 2) u5 None
              true _ _ eq_refl) as [seen [Hsuffix [Hinference _]]].
  exists seen. split; [exact Hsuffix | exact (Hinference eq_refl)].
Defined.

(** Washout -2 on five timesteps, in training mode: the readout receives
    the last two states and the last two targets. *)
Lemma forward_negative_washout_witness :
  forward u5 (Some y5) true (fresh (-2))
  = on_output
      (RRCell_call ZReadout [[4; 5]] (Some [[14; 15]]))
      (set_esn_cell
         (fst (ESNCell_call ZReservoir u5 true (_esn_cell (fresh (-2)))))
         (fresh (-2)))
  /\ Forall (fun s : list Z => length s = 2%nat) [[4; 5]].
Proof.
  pose proof
    (forward_negative_washout ZReservoir ZReadout (fresh (-2)) u5 (Some y5)
       true _ _ 5 (reservoir_after_u5 (-2)) u5_five_timesteps eq_refl
       (proj1 (Z.ltb_lt (-2) 0) eq_refl))
    as [Hforward [Hlengths _]].
  split; [exact Hforward | exact Hlengths].
Defined.

(** Washout 0 in training mode: the five states and the five targets. *)
Lemma forward_zero_washout_witness :
  forward u5 (Some y5) true (fresh 0)
  = on_output
      (RRCell_call ZReadout [[1; 2; 3; 4; 5]] (Some y5))
      (set_esn_cell
         (fst (ESNCell_call ZReservoir u5 true (_esn_cell (fresh 0))))
         (fresh 0)).
Proof.
  exact (forward_zero_washout ZReservoir ZReadout (fresh 0) u5 (Some y5) true
           _ _ (reservoir_after_u5 0) eq_refl).
Defined.

(** [finalize] on the model just constructed fails in the readout: the
    model is not switched to inference. *)
Lemma lifecycle_outcome_witness :
  fst (finalize (fresh 2))
  = set_output (fst (RRCell_finalize ZReadout (_output (fresh 2)))) (fresh 2).
Proof.
  exact (proj1 (proj2 (proj2 (lifecycle_outcome ZReservoir ZReadout
                                (fresh 2))))
           eq_refl).
Defined.

(** The value in the second slot raises: the counter was advanced by the
    first two values and not by the third. *)
Lemma init_stops_at_first_failure_witness :
  __init__ ZReservoir ZReadout (zargs counting failing counting 2) 7
  = (9, Raise RuntimeError).
Proof.
  exact (proj1 (proj2 (init_stops_at_first_failure ZReservoir ZReadout
                         (zargs counting failing counting 2) 7 RuntimeError))
           8 9 7 eq_refl eq_refl).
Defined.

(** The model built from the counting generators. *)
Lemma init_wiring_witness :
  (training counted = true
   /\ mod_training (_esn_cell counted) = true
   /\ mod_training (_output counted) = true)
  /\ _washout counted = 2.
Proof.
  pose proof (init_wiring ZReservoir ZReadout
                (zargs counting counting counting 2) 7 10 counted eq_refl)
    as [Hmode [[Hwashout _] _]].
  split; [exact Hmode | exact Hwashout].
Defined.

(** An inference call on the fitted model: its value is what the readout
    returned on the last three states. *)
Lemma forward_value_source_witness :
  exists hidden_states : batch Z,
    snd (ESNCell_call ZReservoir u5 true (_esn_cell (fitted 2)))
    = Ok hidden_states
    /\ snd (RRCell_call ZReadout
              (slice_time (_washout (fitted 2)) hidden_states)
              (if training (fitted 2)
               then option_map (slice_time (_washout (fitted 2))) None
               else None)
              (_output (fitted 2)))
       = Ok (Some [[63; 64; 65]]).
Proof.
  destruct (forward_value_source ZReservoir ZReadout (fitted 2) u5 None true
              (Some [[63; 64; 65]]) eq_refl)
    as [hs [Hcell [_ [Hvalue _]]]].
  exists hs. split; [exact Hcell | exact Hvalue].
Defined.
